(** * Triangle_generator.py: PSLG preparation for Shewchuk's Triangle

    A shallow embedding of [grader] and [triMeshgen] of
    [Triangle_generator.py].  Python floats are idealised as exact
    rationals ([Q]); rounding of IEEE doubles is not modelled.  The
    geometry library (shapely) and the triangulator are external to the
    repository: the operations the source calls on them are taken as a
    record of functions, [Shapely], and every general theorem holds for
    every such record.  [Rect] is an executable instance used to run the
    code on concrete inputs: its [length] and [interpolate] are exact on
    rectilinear polylines; its buffers are the boxes around a line
    (square caps, where the library's default caps are round) and its
    union is that of pairwise disjoint polygons. *)

From Stdlib Require Import ZArith QArith Qabs Qminmax Qround List Ascii String Bool Lia Lqa.
Import ListNotations.
Open Scope Q_scope.

(** ** Exceptions, printed output and the monad of the embedding *)

Inductive exn : Type :=
| IndexError
| ValueError
| ZeroDivisionError
| NotImplementedError
| AttributeError.

Inductive result (A : Type) : Type :=
| Ok (a : A)
| Raise (e : exn).
Arguments Ok {A} a.
Arguments Raise {A} e.

(** A computation yields the lines it printed and a value or an
    exception. *)
Definition M (A : Type) : Type := (list string * result A)%type.

Definition ret {A} (a : A) : M A := ([], Ok a).
Definition raise {A} (e : exn) : M A := ([], Raise e).
Definition print (s : string) : M unit := ([s], Ok tt).
Definition lift {A} (r : result A) : M A := ([], r).

Definition bind {A B} (c : M A) (k : A -> M B) : M B :=
  match c with
  | (out, Ok a) => let (out', r) := k a in (out ++ out', r)
  | (out, Raise e) => (out, Raise e)
  end.

Declare Scope py_scope.
Delimit Scope py_scope with py.
Notation "x <- c ;; k" := (bind c (fun x => k))
  (at level 61, c at next level, right associativity) : py_scope.
Notation "c ;;; k" := (bind c (fun _ => k))
  (at level 61, right associativity) : py_scope.
Open Scope py_scope.

(** [for x in xs: acc = body(acc, x)] *)
Fixpoint foldM {A B} (body : B -> A -> M B) (xs : list A) (acc : B) : M B :=
  match xs with
  | [] => ret acc
  | x :: xs' => acc' <- body acc x ;; foldM body xs' acc'
  end.

(** [[f(x) for x in xs]] with a body that may raise *)
Fixpoint mapM {A B} (f : A -> M B) (xs : list A) : M (list B) :=
  match xs with
  | [] => ret []
  | x :: xs' => y <- f x ;; ys <- mapM f xs' ;; ret (y :: ys)
  end.

(** ** Python and numpy primitives *)

Definition Qlt_bool (a b : Q) : bool := negb (Qle_bool b a).

(** [int(x)] truncates towards zero. *)
Definition py_int (x : Q) : Z := Z.quot (Qnum x) (Z.pos (Qden x)).

(** [a / b] on floats *)
Definition py_div (a b : Q) : result Q :=
  if Qeq_bool b 0 then Raise ZeroDivisionError else Ok (a / b).

(** [range(n)] and [np.arange(lo, hi)] *)
Definition range (n : Z) : list Z := map Z.of_nat (seq 0 (Z.to_nat n)).
Definition arange (lo hi : Z) : list Z := map (fun i => (lo + i)%Z) (range (hi - lo)).

Definition len {A} (l : list A) : Z := Z.of_nat (List.length l).

(** [xs[-1]] *)
Definition index_last {A} (xs : list A) : result A :=
  match rev xs with
  | [] => Raise IndexError
  | x :: _ => Ok x
  end.

(** [xs[i]] for [i >= 0] *)
Definition index {A} (xs : list A) (i : nat) : result A :=
  match nth_error xs i with
  | Some x => Ok x
  | None => Raise IndexError
  end.

(** ** Geometry: the data shapely hands to the code *)

(** A coordinate tuple, with or without z. *)
Inductive coord : Type :=
| XY (x y : Q)
| XYZ (x y z : Q).

Definition cx (c : coord) : Q := match c with XY x _ | XYZ x _ _ => x end.
Definition cy (c : coord) : Q := match c with XY _ y | XYZ _ y _ => y end.

(** A line-like geometry: a simple line or a multi-part collection. *)
Inductive LineGeom : Type :=
| LineString (cs : list coord)
| MultiLineString (parts : list (list coord)).

(** A polygon: exterior ring, stored closed (first = last), and holes. *)
Record Polygon : Type := mkPolygon {
  shell : list coord;
  holes : list (list coord)
}.

(** A polygon-like geometry.  The empty collection that a union of
    nothing returns is [MultiPolygon []]: its type is not Polygon and its
    [len] is 0. *)
Inductive PolyGeom : Type :=
| SimplePolygon (p : Polygon)
| MultiPolygon (ps : list Polygon).

(** [geom.coords]: multi-part geometries do not provide it. *)
Definition coords (g : LineGeom) : result (list coord) :=
  match g with
  | LineString cs => Ok cs
  | MultiLineString _ => Raise NotImplementedError
  end.

(** [shp.LineString(coords)]: a single coordinate tuple is rejected;
    otherwise the line stores the tuples as given. *)
Definition LineString_new (cs : list coord) : result LineGeom :=
  match cs with
  | [_] => Raise ValueError
  | _ => Ok (LineString cs)
  end.

(** [polygon.boundary]: the exterior ring alone, or the exterior ring
    followed by the holes; an empty polygon has an empty collection. *)
Definition boundary (p : Polygon) : LineGeom :=
  match shell p, holes p with
  | [], _ => MultiLineString []
  | sh, [] => LineString sh
  | sh, hs => MultiLineString (sh :: hs)
  end.

(** The operations of the geometry library the source calls. *)
Record Shapely : Type := mkShapely {
  length : LineGeom -> Q;
  interpolate : LineGeom -> Q -> coord;
  buffer : LineGeom -> Q -> Polygon;
  cascaded_union : list Polygon -> PolyGeom;
  simplify : PolyGeom -> Q -> PolyGeom;
  representative_point : Polygon -> coord
}.

(** Squared Euclidean distance in the plane. *)
Definition dist2 (p q : coord) : Q :=
  (cx q - cx p) * (cx q - cx p) + (cy q - cy p) * (cy q - cy p).

(** ** grader (Triangle_generator.py, lines 178-191) *)

Definition not_a_line_msg : string := "Input type is not a line. Exit function.".

Definition grader (G : Shapely) (shapein : LineGeom) (type : string)
    (target_length : Q) : M (option LineGeom) :=
  if String.eqb type "line" then
    let line := shapein in
    q <- lift (py_div (length G line) target_length) ;;
    let coords0 :=
      map (fun i => interpolate G line (inject_Z i * target_length))
          (range (py_int q)) in
    cs <- lift (coords line) ;;
    last <- lift (index_last cs) ;;
    line' <- lift (LineString_new (coords0 ++ [last])) ;;
    ret (Some line')
  else
    print not_a_line_msg ;;;
    ret None.

(** ** numpy arrays of triMeshgen *)

(** A 2-D float array, as its rows; [[]] is the empty 1-D array that
    [np.array] makes of an empty sequence. *)
Definition ndarray : Type := list (list Q).

Definition row_of (c : coord) : list Q :=
  match c with
  | XY x y => [x; y]
  | XYZ x y z => [x; y; z]
  end.

Definition same_dim (c d : coord) : bool :=
  match c, d with
  | XY _ _, XY _ _ | XYZ _ _ _, XYZ _ _ _ => true
  | _, _ => false
  end.

(** [np.array(coords)]: one row per coordinate tuple; tuples of mixed
    dimension do not make a 2-D array. *)
Definition np_array (cs : list coord) : result ndarray :=
  match cs with
  | [] => Ok []
  | c :: _ => if forallb (same_dim c) cs then Ok (map row_of cs) else Raise ValueError
  end.

(** [a[:,0:2]]: a 1-D (empty) array has no second axis. *)
Definition slice_xy (a : ndarray) : result ndarray :=
  match a with
  | [] => Raise IndexError
  | _ => Ok (map (firstn 2) a)
  end.

(** [np.vstack((a, b))] on float arrays: the rows must be equally wide. *)
Definition vstack (a b : ndarray) : result ndarray :=
  match a, b with
  | r :: _, r' :: _ =>
      if Nat.eqb (List.length r) (List.length r') then Ok (a ++ b) else Raise ValueError
  | _, _ => Raise ValueError
  end.

(** [np.vstack((np.arange(0,m),np.arange(1,m+1))).T] *)
Definition edges (m : Z) : list (Z * Z) := combine (arange 0 m) (arange 1 (m + 1)).

(** [b[-1][1] = v] *)
Definition set_last_snd (b : list (Z * Z)) (v : Z) : result (list (Z * Z)) :=
  match index_last b with
  | Ok (i, _) => Ok (removelast b ++ [(i, v)])
  | Raise e => Raise e
  end.

(** [b += off] *)
Definition shift (off : Z) (b : list (Z * Z)) : list (Z * Z) :=
  map (fun ij => (fst ij + off, snd ij + off)%Z) b.

(** The dictionary handed to the triangulator. *)
Record tri_data : Type := mk_tri_data {
  vertices : ndarray;
  segments : list (Z * Z);
  regions : option (list Q)
}.

(** ** triMeshgen (Triangle_generator.py, lines 26-176) *)

(** Lines 50-59: multi-part collections are split and short lines are
    dropped. *)
Definition keep_if_long (G : Shapely) (target_length : Q) (cs : list coord) : list LineGeom :=
  if Qlt_bool ((3 # 2) * target_length) (length G (LineString cs))
  then [LineString cs] else [].

Definition lines_new (G : Shapely) (lines : list LineGeom) (target_length : Q) : list LineGeom :=
  flat_map (fun g =>
    match g with
    | LineString cs => keep_if_long G target_length cs
    | MultiLineString parts => flat_map (keep_if_long G target_length) parts
    end) lines.

(** Lines 63-70 *)
Definition polygons_new (polygons : list PolyGeom) : list Polygon :=
  flat_map (fun g =>
    match g with
    | SimplePolygon p => [p]
    | MultiPolygon ps => ps
    end) polygons.

(** Lines 76 and 78: [grader(..., type = 'line', ...)].  The None of the
    other branch of grader would fail at its first use. *)
Definition grade (G : Shapely) (target_length : Q) (l : LineGeom) : M LineGeom :=
  r <- grader G l "line" target_length ;;
  match r with
  | Some l' => ret l'
  | None => raise AttributeError
  end.

(** Lines 93 and 97: [np.hstack((point, [0, area]))] *)
Definition rep_row (G : Shapely) (p : Polygon) (area : Q) : list Q :=
  row_of (representative_point G p) ++ [0; area].

(** Lines 92-97: the loop runs once per component and reads component 1
    every time. *)
Definition rep_points_of (G : Shapely) (buf_union : PolyGeom) (area : Q) : M (list (list Q)) :=
  match buf_union with
  | SimplePolygon p => ret [rep_row G p area]
  | MultiPolygon ps =>
      mapM (fun _ => p1 <- lift (index ps 1) ;; ret (rep_row G p1 area)) ps
  end.

(** Lines 104-116 *)
Definition boundary_parts (p : Polygon) : list LineGeom :=
  match boundary p with
  | LineString cs => [LineString cs]
  | MultiLineString parts => map LineString parts
  end.

Definition buf_lines_of (buf_union : PolyGeom) : list LineGeom :=
  match buf_union with
  | SimplePolygon p => boundary_parts p
  | MultiPolygon ps => flat_map boundary_parts ps
  end.

(** Lines 123-130: the boundary ring without its closing point, and a
    closed loop of segments. *)
Definition add_boundary (bounding_poly : Polygon) : M tri_data :=
  ring <- lift (match boundary bounding_poly with
                | LineString cs => Ok cs
                | MultiLineString parts => index parts 0
                end) ;;
  a <- lift (np_array (removelast ring)) ;;
  b <- lift (set_last_snd (edges (len a)) 0) ;;
  ret (mk_tri_data a b None).

(** Lines 135-142: the body of the loop over the graded lines. *)
Definition add_input_line (buffer_dist : Q) (td : tri_data) (l : LineGeom) : M tri_data :=
  cs <- lift (coords l) ;;
  a <- lift (np_array cs) ;;
  a <- lift (slice_xy a) ;;
  let segs :=
    if Qeq_bool buffer_dist 0
    then segments td ++ shift (len (vertices td)) (removelast (edges (len a)))
    else segments td in
  v <- lift (vstack (vertices td) a) ;;
  ret (mk_tri_data v segs (regions td)).

(** Lines 147-153: the body of the loop over the buffer boundaries. *)
Definition add_buffer_line (td : tri_data) (l : LineGeom) : M tri_data :=
  cs <- lift (coords l) ;;
  a <- lift (np_array cs) ;;
  a <- lift (slice_xy a) ;;
  let segs := segments td ++ shift (len (vertices td)) (removelast (edges (len a))) in
  v <- lift (vstack (vertices td) a) ;;
  ret (mk_tri_data v segs (regions td)).

Definition dquote : string := String (Ascii.ascii_of_nat 34) EmptyString.

(** Line 43 *)
Definition polygons_note : string :=
  String.append "NOTE: input of interior "
    (String.append dquote (String.append "polygons"
      (String.append dquote " not yet implemented"))).

(** What lines 42-116 leave for the assembly: the graded lines, the
    region rows and the buffer boundaries ([buf_lines] is not bound in
    the source unless [buffer_dist > 0], and not read then either). *)
Definition prepare (G : Shapely) (lines : list LineGeom) (polygons : list PolyGeom)
    (target_length buffer_dist : Q)
    : M (list LineGeom * list (list Q) * list LineGeom) :=
  (if (0 <? len polygons)%Z
   then print polygons_note ;;;
        print "Please convert to polygons to lines (ie shapely LineStrings) and re-try"
   else ret tt) ;;;
  print "grading lines to target node spacing .." ;;;
  let lines := lines_new G lines target_length in
  let polygons := polygons_new polygons in
  lines <- mapM (grade G target_length) lines ;;
  polys <- mapM (fun p => grade G target_length (boundary p)) polygons ;;
  let lines := lines ++ polys in
  print "buffering lines for refinement near lines ..." ;;;
  let a_inner := target_length * target_length in
  let area_in_buffer := 5 * a_inner in
  if Qlt_bool 0 buffer_dist then
    let bufs := map (fun l => buffer G l buffer_dist) lines in
    let buf_union := cascaded_union G bufs in
    let buf_union := simplify G buf_union (target_length / 2) in
    rep_points <- rep_points_of G buf_union area_in_buffer ;;
    ret (lines, rep_points, buf_lines_of buf_union)
  else
    ret (lines, [], []).

(** Lines 119-162 *)
Definition assemble (bounding_poly : Polygon) (lines : list LineGeom)
    (rep_points : list (list Q)) (buf_lines : list LineGeom) (buffer_dist : Q)
    : M tri_data :=
  print "preparing triangle input data .." ;;;
  td <- add_boundary bounding_poly ;;
  td <- foldM (add_input_line buffer_dist) lines td ;;
  td <- (if Qlt_bool 0 buffer_dist then foldM add_buffer_line buf_lines td else ret td) ;;
  if Qlt_bool 0 buffer_dist then
    r <- lift (index rep_points 0) ;;
    ret (mk_tri_data (vertices td) (segments td) (Some r))
  else ret td.

(** The dictionary [tri_data] as it stands at line 162. *)
Definition triMeshgen_tri_data (G : Shapely) (bounding_poly : Polygon)
    (lines : list LineGeom) (points : list coord) (polygons : list PolyGeom)
    (target_length element_area buffer_dist : Q) : M tri_data :=
  pre <- prepare G lines polygons target_length buffer_dist ;;
  let '(lines, rep_points, buf_lines) := pre in
  assemble bounding_poly lines rep_points buf_lines buffer_dist.

(** The triangulator: its result on [tri_data] and the maximum area, and
    the statistics lines printed after it (they include a time). *)
Record Mesh : Type := mkMesh {
  mesh_vertices : ndarray;
  triangles : list (Z * Z * Z)
}.

Record Triangle : Type := mkTriangle {
  triangulate : tri_data -> Q -> result Mesh;
  report : Mesh -> list string
}.

Definition triMeshgen (G : Shapely) (T : Triangle) (bounding_poly : Polygon)
    (lines : list LineGeom) (points : list coord) (polygons : list PolyGeom)
    (target_length element_area buffer_dist : Q) : M Mesh :=
  td <- triMeshgen_tri_data G bounding_poly lines points polygons
          target_length element_area buffer_dist ;;
  print "tiangulating .." ;;;
  super_triangle <- lift (triangulate T td element_area) ;;
  (report T super_triangle, Ok tt) ;;;
  ret super_triangle.

(** ** write_tri_to_shapefile (Triangle_generator.py, lines 193-242) *)

(** [a[i]] on a list or array: negative indices count from the end. *)
Definition getitem {A} (a : list A) (i : Z) : result A :=
  if (0 <=? i)%Z then index a (Z.to_nat i)
  else if (- len a <=? i)%Z then index a (Z.to_nat (len a + i))
  else Raise IndexError.

(** [vertices[triangles[i]]]: the rows a triangle refers to. *)
Definition take (a : ndarray) (t : Z * Z * Z) : result ndarray :=
  let '(i, j, k) := t in
  match getitem a i, getitem a j, getitem a k with
  | Ok r1, Ok r2, Ok r3 => Ok [r1; r2; r3]
  | _, _, _ => Raise IndexError
  end.

(** [s.strip(c)] for a single character [c]. *)
Fixpoint lstrip (c : Ascii.ascii) (s : string) : string :=
  match s with
  | EmptyString => EmptyString
  | String a s' => if Ascii.eqb a c then lstrip c s' else s
  end.

Fixpoint rstrip (c : Ascii.ascii) (s : string) : string :=
  match s with
  | EmptyString => EmptyString
  | String a s' =>
      match rstrip c s' with
      | EmptyString => if Ascii.eqb a c then EmptyString else String a EmptyString
      | r => String a r
      end
  end.

Definition strip (c : Ascii.ascii) (s : string) : string := rstrip c (lstrip c s).

(** What the exporter takes from its libraries: the point and polygon
    constructors of the geometry library, numpy's rendering of a row of
    the triangle array, and the clock (the text of the k-th elapsed
    time, already cut to eight characters). *)
Record Exporter : Type := mkExporter {
  Point_new : list Q -> result coord;
  Polygon_new : ndarray -> result Polygon;
  str_row : Z * Z * Z -> string;
  elapsed : nat -> string
}.

(** The records written to the two layers. *)
Record PointFeature : Type := mkPointFeature {
  pf_geometry : coord;
  pf_id : Z
}.

Record PolygonFeature : Type := mkPolygonFeature {
  gf_geometry : Polygon;
  gf_id : Z;
  gf_vertices : string
}.

Inductive Shapefile : Type :=
| PointFile (path : string) (features : list PointFeature)
| PolygonFile (path : string) (features : list PolygonFeature).

Definition patience : string := "patience is a virtue".

(** The files are opened only after both geometry lists are built.  The
    value is the files written, in order, with their records, and the
    returned string; [mapping(geometry)] is the geometry itself, and
    writing a record is taken not to fail. *)
Definition write_tri_to_shapefile (E : Exporter) (triangulation : Mesh)
    (output_point_shapefile output_poly_shapefile : string)
    : M (list Shapefile * string) :=
  let super_tri := triangulation in
  print "creating shapely point list .." ;;;
  points <- mapM (fun i =>
              r <- lift (getitem (mesh_vertices super_tri) i) ;;
              lift (Point_new E r))
            (range (len (mesh_vertices super_tri))) ;;
  print "creating shapely polygon list .." ;;;
  polygons <- mapM (fun i =>
                t <- lift (getitem (triangles super_tri) i) ;;
                rows <- lift (take (mesh_vertices super_tri) t) ;;
                lift (Polygon_new E rows))
              (range (len (triangles super_tri))) ;;
  print "writing point shapefile .." ;;;
  pfs <- mapM (fun i =>
           p <- lift (getitem points i) ;;
           ret (mkPointFeature p i))
         (range (len points)) ;;
  print (String.append (elapsed E 0) " seconds") ;;;
  print "writing polygon shapefile .." ;;;
  gfs <- mapM (fun i =>
           p <- lift (getitem polygons i) ;;
           t <- lift (getitem (triangles super_tri) i) ;;
           ret (mkPolygonFeature p i
                  (strip "]"%char (strip "["%char (str_row E t)))))
         (range (len polygons)) ;;
  print (String.append (elapsed E 1) " seconds") ;;;
  ret ([PointFile output_point_shapefile pfs; PolygonFile output_poly_shapefile gfs],
       patience).

(** A test double of the exporter's libraries: points and polygons of
    the rows given, rows rendered like ["[0 1 2]"] for the triangles of
    [mesh2], a clock that shows no time. *)
Definition point_of_row (r : list Q) : result coord :=
  match r with
  | [x; y] => Ok (XY x y)
  | [x; y; z] => Ok (XYZ x y z)
  | _ => Raise ValueError
  end.

Definition polygon_of_rows (rows : ndarray) : result Polygon :=
  match mapM (fun r => lift (point_of_row r)) rows with
  | (_, Ok (c :: cs)) => Ok (mkPolygon (c :: cs ++ [c]) [])
  | (_, Ok []) => Raise ValueError
  | (_, Raise e) => Raise e
  end.

Definition digit (i : Z) : string :=
  String (Ascii.ascii_of_nat (48 + Z.to_nat i)) EmptyString.

Definition render_row (t : Z * Z * Z) : string :=
  let '(i, j, k) := t in
  String.append "["
    (String.append (digit i) (String.append " " (String.append (digit j)
      (String.append " " (String.append (digit k) "]"))))).

Definition test_exporter : Exporter :=
  mkExporter point_of_row polygon_of_rows render_row (fun _ => "0.000000"%string).

Definition mesh2 : Mesh :=
  mkMesh [[0; 0]; [1; 0]; [1; 1]; [0; 1]] [(0, 1, 2); (0, 2, 3)]%Z.

Definition mesh_bad : Mesh :=
  mkMesh [[0; 0]; [1; 0]; [1; 1]; [0; 1]] [(0, 1, 2); (0, 2, 4)]%Z.

(** Every index of a triangle lies in the range numpy accepts for [n]
    rows. *)
Definition in_bounds (n : Z) (t : Z * Z * Z) : Prop :=
  let '(i, j, k) := t in
  (- n <= i < n)%Z /\ (- n <= j < n)%Z /\ (- n <= k < n)%Z.

(** No character of [s] is [c]. *)
Fixpoint free_of (c : Ascii.ascii) (s : string) : Prop :=
  match s with
  | EmptyString => True
  | String a s' => a <> c /\ free_of c s'
  end.

(** ** An executable geometry for rectilinear polylines *)

Module Rect.

(** Length of a segment parallel to an axis. *)
Definition seg_len (p q : coord) : Q :=
  Qred (Qabs (cx q - cx p) + Qabs (cy q - cy p)).

Fixpoint path_len (p : coord) (rest : list coord) : Q :=
  match rest with
  | [] => 0
  | q :: rest' => Qred (seg_len p q + path_len q rest')
  end.

Definition line_len (cs : list coord) : Q :=
  match cs with
  | [] => 0
  | p :: rest => path_len p rest
  end.

Definition length (g : LineGeom) : Q :=
  match g with
  | LineString cs => line_len cs
  | MultiLineString parts => Qred (fold_right (fun cs acc => line_len cs + acc) 0 parts)
  end.

(** The point at fraction [t] of the segment from [p] to [q]. *)
Definition along (p q : coord) (t : Q) : coord :=
  match p, q with
  | XYZ x0 y0 z0, XYZ x1 y1 z1 =>
      XYZ (Qred (x0 + t * (x1 - x0))) (Qred (y0 + t * (y1 - y0)))
          (Qred (z0 + t * (z1 - z0)))
  | _, _ =>
      XY (Qred (cx p + t * (cx q - cx p))) (Qred (cy p + t * (cy q - cy p)))
  end.

Fixpoint walk (p : coord) (rest : list coord) (d : Q) : coord :=
  match rest with
  | [] => p
  | q :: rest' =>
      if Qle_bool d 0 then p
      else if Qlt_bool d (seg_len p q) then along p q (d / seg_len p q)
      else walk q rest' (d - seg_len p q)
  end.

Definition origin : coord := XY 0 0.

(** Distances are measured from the start; negative ones from the end. *)
Definition interpolate (g : LineGeom) (d : Q) : coord :=
  match g with
  | LineString (p :: rest) =>
      if Qlt_bool d 0 then walk p rest (path_len p rest + d) else walk p rest d
  | _ => origin
  end.

Definition xmin (cs : list coord) : Q := fold_right (fun c m => Qmin (cx c) m) (cx (hd origin cs)) cs.
Definition xmax (cs : list coord) : Q := fold_right (fun c m => Qmax (cx c) m) (cx (hd origin cs)) cs.
Definition ymin (cs : list coord) : Q := fold_right (fun c m => Qmin (cy c) m) (cy (hd origin cs)) cs.
Definition ymax (cs : list coord) : Q := fold_right (fun c m => Qmax (cy c) m) (cy (hd origin cs)) cs.

Definition box (x0 y0 x1 y1 : Q) : Polygon :=
  mkPolygon [XY x0 y0; XY x1 y0; XY x1 y1; XY x0 y1; XY x0 y0] [].

(** Square-capped, mitred buffer: the bounding box grown by [d]. *)
Definition buffer (g : LineGeom) (d : Q) : Polygon :=
  match g with
  | LineString cs =>
      box (Qred (xmin cs - d)) (Qred (ymin cs - d)) (Qred (xmax cs + d)) (Qred (ymax cs + d))
  | MultiLineString _ => mkPolygon [] []
  end.

(** Union of pairwise disjoint polygons. *)
Definition cascaded_union (ps : list Polygon) : PolyGeom :=
  match ps with
  | [p] => SimplePolygon p
  | _ => MultiPolygon ps
  end.

Definition simplify (g : PolyGeom) (tolerance : Q) : PolyGeom := g.

(** Centre of the bounding box. *)
Definition representative_point (p : Polygon) : coord :=
  XY (Qred ((xmin (shell p) + xmax (shell p)) / 2))
     (Qred ((ymin (shell p) + ymax (shell p)) / 2)).

(** Strict containment in a box-shaped polygon. *)
Definition contains (p : Polygon) (c : coord) : bool :=
  Qlt_bool (xmin (shell p)) (cx c) && Qlt_bool (cx c) (xmax (shell p)) &&
  Qlt_bool (ymin (shell p)) (cy c) && Qlt_bool (cy c) (ymax (shell p)).

Definition geom : Shapely :=
  mkShapely length interpolate buffer cascaded_union simplify representative_point.

End Rect.

(** ** Concrete inputs *)

Definition line12 : LineGeom := LineString [XY 0 0; XY 12 0].
Definition ring4 : LineGeom := LineString [XY 0 0; XY 1 0; XY 1 1; XY 0 1; XY 0 0].

(** A rectangular domain, two short rectilinear lines far from each
    other, and a domain whose coordinates carry z. *)
Definition domain : Polygon := Rect.box 0 0 1000 800.
Definition line_a : LineGeom := LineString [XY 100 100; XY 160 100].
Definition line_b : LineGeom := LineString [XY 500 500; XY 500 560].
Definition domain_z : Polygon :=
  mkPolygon [XYZ 0 0 7; XYZ 10 0 7; XYZ 10 10 7; XYZ 0 10 7; XYZ 0 0 7] [].
Definition line_z : LineGeom := LineString [XYZ 2 2 7; XYZ 8 2 7].

(** What grading at spacing 20 and buffering by 25 make of [line_a] and
    [line_b]. *)
Definition graded_a : LineGeom := LineString [XY 100 100; XY 120 100; XY 140 100; XY 160 100].
Definition graded_b : LineGeom := LineString [XY 500 500; XY 500 520; XY 500 540; XY 500 560].
Definition buffer_a : Polygon := Rect.box 75 75 185 125.
Definition buffer_b : Polygon := Rect.box 475 475 525 585.

Definition short30 : LineGeom := LineString [XY 0 0; XY 30 0].
Definition lines_mixed : list LineGeom :=
  [line_a; short30; MultiLineString [[XY 0 0; XY 10 0]; [XY 500 500; XY 500 560]]].

(** An interior polygon with a hole, an empty dictionary, and a
    triangulator that returns the vertices it is given. *)
Definition holed : Polygon :=
  mkPolygon [XY 200 200; XY 400 200; XY 400 400; XY 200 400; XY 200 200]
            [[XY 250 250; XY 300 250; XY 300 300; XY 250 250]].
Definition no_data : tri_data := mk_tri_data [] [] None.
Definition echo_triangle : Triangle :=
  mkTriangle (fun td _ => Ok (mkMesh (vertices td) [])) (fun _ => []).





(** The regular samples of lines 184: [interpolate(i * s)] for
    [i in range(int(L / s))]. *)
Definition samples (G : Shapely) (line : LineGeom) (s : Q) : list coord :=
  map (fun i => interpolate G line (inject_Z i * s))
      (range (py_int (length G line / s))).

(** ** The PSLG in the words of the specification *)

(** An open chain over [m] vertices stored from index [off] on. *)
Definition chain (off m : Z) : list (Z * Z) :=
  map (fun i => (i + off, i + 1 + off)%Z) (range (m - 1)).

(** A closed loop over the first [n] vertices. *)
Definition loop (n : Z) : list (Z * Z) :=
  map (fun i => (i, i + 1)%Z) (range (n - 1)) ++ [((n - 1)%Z, 0%Z)].

(** Number of vertices of several lines together. *)
Fixpoint total (ms : list Z) : Z :=
  match ms with
  | [] => 0
  | m :: ms' => m + total ms'
  end.

(** One open chain per line, each after the vertices of the previous. *)
Fixpoint chains (off : Z) (ms : list Z) : list (Z * Z) :=
  match ms with
  | [] => []
  | m :: ms' => chain off m ++ chains (off + m) ms'
  end.

(** The (x, y) rows and the number of points of a line. *)
Definition line_rows (l : LineGeom) : ndarray :=
  match l with
  | LineString cs => map (firstn 2) (map row_of cs)
  | MultiLineString _ => []
  end.

Definition npoints (l : LineGeom) : Z := len (line_rows l).

(** A segment of a PSLG with [nv] vertices: two distinct indices in
    range. *)
Definition valid_segment (nv : Z) (seg : Z * Z) : Prop :=
  (0 <= fst seg < nv)%Z /\ (0 <= snd seg < nv)%Z /\ fst seg <> snd seg.

(** A segment end among the vertices stored at [lo], ..., [hi - 1]. *)
Definition touches (lo hi : Z) (seg : Z * Z) : Prop :=
  (lo <= fst seg < hi)%Z \/ (lo <= snd seg < hi)%Z.

(** The connected components of a union. *)
Definition components (u : PolyGeom) : list Polygon :=
  match u with
  | SimplePolygon p => [p]
  | MultiPolygon ps => ps
  end.

(** The simple lines of the input, multi-part collections split. *)
Definition flatten_lines (lines : list LineGeom) : list LineGeom :=
  flat_map (fun g =>
    match g with
    | LineString cs => [LineString cs]
    | MultiLineString parts => map LineString parts
    end) lines.

Definition long_enough (G : Shapely) (s : Q) (l : LineGeom) : bool :=
  Qlt_bool ((3 # 2) * s) (length G l).

(** A coordinate tuple without z. *)
Definition is_xy (c : coord) : bool :=
  match c with
  | XY _ _ => true
  | XYZ _ _ _ => false
  end.

(** A simple line with at least one coordinate, all without z. *)
Definition line2d (l : LineGeom) : Prop :=
  match l with
  | LineString (c :: cs) => forallb is_xy (c :: cs) = true
  | _ => False
  end.

(** The progress lines of a run without interior polygons. *)
Definition progress_lines : list string :=
  ["grading lines to target node spacing .."%string;
   "buffering lines for refinement near lines ..."%string;
   "preparing triangle input data .."%string].

(** * Theorems *)

(** ** Monad and list facts *)

Lemma bind_lift_ok {A B} (a : A) (k : A -> M B) : bind (lift (Ok a)) k = k a.
Proof. unfold bind, lift. destruct (k a). reflexivity. Qed.

Lemma range_succ n : (0 <= n)%Z -> range (n + 1) = range n ++ [n].
Proof.
  intros Hn. unfold range.
  replace (Z.to_nat (n + 1)) with (Z.to_nat n + 1)%nat by lia.
  rewrite seq_app, map_app. simpl. now rewrite Z2Nat.id.
Qed.

Lemma range_last m : (1 <= m)%Z -> range m = range (m - 1) ++ [(m - 1)%Z].
Proof.
  intros Hm. replace m with (m - 1 + 1)%Z at 1 by lia. apply range_succ. lia.
Qed.

Lemma range_nonpos n : (n <= 0)%Z -> range n = [].
Proof.
  intros Hn. unfold range. replace (Z.to_nat n) with 0%nat by lia. reflexivity.
Qed.

Lemma in_range i n : In i (range n) <-> (0 <= i < n)%Z.
Proof.
  unfold range. rewrite in_map_iff. split.
  - intros [k [<- Hk]]. apply in_seq in Hk. lia.
  - intros Hi. exists (Z.to_nat i). split; [lia|]. apply in_seq. lia.
Qed.

Lemma index_last_app {A} (xs : list A) (x : A) : index_last (xs ++ [x]) = Ok x.
Proof. unfold index_last. now rewrite rev_app_distr. Qed.

(** ** Truncation and division *)

Lemma py_int_floor x : 0 <= x -> py_int x = Qfloor x.
Proof.
  destruct x as [n d]. unfold Qle, py_int, Qfloor. simpl. intros H.
  apply Z.quot_div_nonneg; lia.
Qed.

Lemma py_div_pos a s : 0 < s -> py_div a s = Ok (a / s).
Proof.
  intros Hs. unfold py_div.
  destruct (Qeq_bool s 0) eqn:E; [|reflexivity].
  apply Qeq_bool_iff in E. rewrite E in Hs. now apply Qlt_irrefl in Hs.
Qed.


Lemma py_int_div_ge_1 L s : 0 < s -> s <= L -> (1 <= py_int (L / s))%Z.
Proof.
  intros Hs HL.
  assert (Hq : 1 <= L / s) by (apply Qle_shift_div_l; lra).
  rewrite py_int_floor by lra.
  change 1%Z with (Qfloor 1). now apply Qfloor_resp_le.
Qed.


(** ** grader on a simple line *)

Lemma grader_line G cs lastc s :
  0 < s -> index_last cs = Ok lastc ->
  grader G (LineString cs) "line" s =
    match LineString_new (samples G (LineString cs) s ++ [lastc]) with
    | Ok l => ([], Ok (Some l))
    | Raise e => ([], Raise e)
    end.
Proof.
  intros Hs Hlast. unfold grader. simpl String.eqb. cbv iota.
  rewrite (py_div_pos _ _ Hs), bind_lift_ok.
  simpl coords. rewrite bind_lift_ok, Hlast, bind_lift_ok.
  fold (samples G (LineString cs) s).
  destruct (LineString_new _); reflexivity.
Qed.

Lemma LineString_new_two (a : coord) (l : list coord) (b : coord) :
  LineString_new ((a :: l) ++ [b]) = Ok (LineString ((a :: l) ++ [b])).
Proof. destruct l; reflexivity. Qed.







(** ** The rectilinear geometry on the straight line of length 12 *)

Lemma Qlt_bool_iff a b : Qlt_bool a b = true <-> a < b.
Proof.
  unfold Qlt_bool. rewrite negb_true_iff. split.
  - intros H. apply Qnot_le_lt. intros Hle. apply Qle_bool_iff in Hle. congruence.
  - intros H. destruct (Qle_bool b a) eqn:E; [|reflexivity].
    apply Qle_bool_iff in E. lra.
Qed.


(** On a segment parallel to an axis the length of the rectilinear
    geometry is the Euclidean one. *)
Lemma rect_seg_len_euclidean p q :
  cx p == cx q \/ cy p == cy q ->
  Rect.seg_len p q * Rect.seg_len p q == dist2 p q.
Proof.
  intros H. unfold Rect.seg_len, dist2. rewrite Qred_correct.
  set (dx := cx q - cx p). set (dy := cy q - cy p).
  assert (Hx : Qabs dx * Qabs dx == dx * dx).
  { rewrite <- Qabs_Qmult. apply Qabs_pos. nra. }
  assert (Hy : Qabs dy * Qabs dy == dy * dy).
  { rewrite <- Qabs_Qmult. apply Qabs_pos. nra. }
  assert (Hxy : Qabs dx * Qabs dy == 0).
  { rewrite <- Qabs_Qmult.
    assert (E : dx * dy == 0) by (unfold dx, dy; destruct H as [E|E]; rewrite E; ring).
    rewrite E. reflexivity. }
  transitivity (Qabs dx * Qabs dx + 2 * (Qabs dx * Qabs dy) + Qabs dy * Qabs dy); [ring|].
  rewrite Hx, Hy, Hxy. ring.
Qed.






(** ** Short lines, exact multiples, wrong type *)






(** C9.  Called with a type designation other than 'line', grader prints
    its message and returns None: no line is produced. *)
Theorem grader_non_line_type (G : Shapely) (shapein : LineGeom) (type : string) (s : Q) :
  type <> "line"%string ->
  grader G shapein type s = ([not_a_line_msg], Ok None).
Proof.
  intros Hty. unfold grader.
  apply String.eqb_neq in Hty. rewrite Hty. reflexivity.
Qed.

(** Witness of C9: a line handed over as a 'polygon'. *)
Lemma grader_non_line_type_witness :
  grader Rect.geom line12 "polygon" 5 = ([not_a_line_msg], Ok None).
Proof.
  apply (grader_non_line_type Rect.geom line12 "polygon" 5).
  discriminate.
Defined.

(** ** Running monadic code backwards *)

Lemma bind_ok {A B} (c : M A) (k : A -> M B) out b :
  bind c k = (out, Ok b) ->
  exists o1 a o2, c = (o1, Ok a) /\ k a = (o2, Ok b) /\ out = o1 ++ o2.
Proof.
  unfold bind. destruct c as [o1 [a|e]]; [|discriminate].
  destruct (k a) as [o2 r] eqn:E. intros H. injection H as <- ->.
  exists o1, a, o2. auto.
Qed.

Lemma lift_ok {A} (r : result A) out a : lift r = (out, Ok a) -> r = Ok a.
Proof. unfold lift. congruence. Qed.

Lemma ret_ok {A} (x : A) out a : ret x = (out, Ok a) -> x = a.
Proof. unfold ret. congruence. Qed.

Ltac inv_bind H :=
  let o1 := fresh "o" in let a := fresh "a" in let o2 := fresh "o" in
  let H1 := fresh "Hc" in let H2 := fresh "Hk" in let Ho := fresh "Ho" in
  apply bind_ok in H; destruct H as (o1 & a & o2 & H1 & H2 & Ho).

Tactic Notation "inv_bind_as" hyp(H) ident(o1) ident(a) ident(H1) ident(H2) :=
  let o2 := fresh "rest" in
  apply bind_ok in H; destruct H as (o1 & a & o2 & H1 & H2 & ?).

Lemma foldM_ok_inv {A B} (P : B -> B -> list A -> Prop) (body : B -> A -> M B) :
  (forall acc, P acc acc []) ->
  (forall acc0 acc xs x o acc',
      P acc0 acc xs -> body acc x = (o, Ok acc') -> P acc0 acc' (xs ++ [x])) ->
  forall xs acc out r, foldM body xs acc = (out, Ok r) -> P acc r xs.
Proof.
  intros Hnil Hstep xs.
  assert (Hgen : forall done acc0 acc out r,
             P acc0 acc done -> foldM body xs acc = (out, Ok r) -> P acc0 r (done ++ xs)).
  { induction xs as [|x xs IH]; intros done acc0 acc out r HP Hrun.
    - apply ret_ok in Hrun. subst. now rewrite app_nil_r.
    - cbn [foldM] in Hrun. inv_bind Hrun.
      replace (done ++ x :: xs) with ((done ++ [x]) ++ xs)
        by (rewrite <- app_assoc; reflexivity).
      eapply IH; [|exact Hk]. eapply Hstep; eassumption. }
  intros acc out r Hrun. apply (Hgen [] acc acc out r (Hnil acc) Hrun).
Qed.

(** ** Segment arrays *)

Lemma combine_map_same {A B C} (f : A -> B) (g : A -> C) (l : list A) :
  combine (map f l) (map g l) = map (fun x => (f x, g x)) l.
Proof. induction l; simpl; congruence. Qed.

Lemma edges_spec m : edges m = map (fun i => (i, i + 1)%Z) (range m).
Proof.
  unfold edges, arange. rewrite Z.sub_0_r, Z.add_simpl_r, combine_map_same.
  apply map_ext. intros i. f_equal; lia.
Qed.

Lemma removelast_map_range {A} (f : Z -> A) m :
  removelast (map f (range m)) = map f (range (m - 1)).
Proof.
  destruct (Z_le_gt_dec m 0) as [Hm|Hm].
  - rewrite !range_nonpos by lia. reflexivity.
  - rewrite (range_last m) by lia. rewrite map_app.
    change (map f [(m - 1)%Z]) with [f (m - 1)%Z]. apply removelast_last.
Qed.

(** What lines 138-140 and 149-151 compute is the open chain. *)
Lemma chain_spec off m : shift off (removelast (edges m)) = chain off m.
Proof.
  unfold shift, chain. rewrite edges_spec, removelast_map_range, map_map.
  reflexivity.
Qed.

(** What lines 127-128 compute is the closed loop, for [n >= 1]. *)
Lemma loop_spec n : (1 <= n)%Z -> set_last_snd (edges n) 0 = Ok (loop n).
Proof.
  intros Hn. unfold set_last_snd, loop.
  rewrite edges_spec, removelast_map_range.
  rewrite (range_last n) by lia. rewrite map_app. cbn [map].
  now rewrite index_last_app.
Qed.

Lemma loop_empty n : (n <= 0)%Z -> set_last_snd (edges n) 0 = Raise IndexError.
Proof.
  intros Hn. unfold set_last_snd. rewrite edges_spec, range_nonpos by lia.
  reflexivity.
Qed.

Lemma len_app {A} (l l' : list A) : len (l ++ l') = (len l + len l')%Z.
Proof. unfold len. rewrite length_app. lia. Qed.

Lemma len_nonneg {A} (l : list A) : (0 <= len l)%Z.
Proof. unfold len. lia. Qed.

Lemma in_chain off m seg :
  In seg (chain off m) ->
  (off <= fst seg)%Z /\ (snd seg = fst seg + 1)%Z /\ (snd seg < off + m)%Z.
Proof.
  unfold chain. intros H. apply in_map_iff in H. destruct H as [i [<- Hi]].
  apply in_range in Hi. cbn [fst snd]. lia.
Qed.

Lemma in_chains ms : forall off seg,
  Forall (fun m => (0 <= m)%Z) ms ->
  In seg (chains off ms) ->
  (off <= fst seg)%Z /\ (snd seg = fst seg + 1)%Z /\ (snd seg < off + total ms)%Z.
Proof.
  induction ms as [|m ms IH]; intros off seg Hnn Hin; [contradiction|].
  inversion Hnn as [|? ? Hm Hms]; subst.
  cbn [chains total] in *. apply in_app_or in Hin. destruct Hin as [Hin|Hin].
  - apply in_chain in Hin.
    assert (0 <= total ms)%Z by (clear -Hms; induction Hms; cbn [total]; lia).
    lia.
  - apply IH in Hin; [lia | assumption].
Qed.

Lemma in_loop n seg :
  (1 <= n)%Z -> In seg (loop n) ->
  (0 <= fst seg < n)%Z /\ (0 <= snd seg < n)%Z /\ (2 <= n -> fst seg <> snd seg)%Z.
Proof.
  intros Hn Hin. unfold loop in Hin. apply in_app_or in Hin. destruct Hin as [Hin|Hin].
  - apply in_map_iff in Hin. destruct Hin as [i [<- Hi]]. apply in_range in Hi.
    cbn [fst snd]. lia.
  - destruct Hin as [<-|[]]. cbn [fst snd]. lia.
Qed.

(** ** The assembly, step by step *)

Lemma np_array_ok cs a : np_array cs = Ok a -> a = map row_of cs.
Proof.
  unfold np_array. destruct cs as [|c cs]; [now intros [= <-]|].
  destruct (forallb _ _); [now intros [= <-] | discriminate].
Qed.

Lemma slice_xy_ok a a' : slice_xy a = Ok a' -> a' = map (firstn 2) a /\ a <> [].
Proof.
  unfold slice_xy. destruct a; [discriminate|]. intros [= <-]. split; [reflexivity | discriminate].
Qed.

Lemma vstack_ok a b v : vstack a b = Ok v -> v = a ++ b.
Proof.
  unfold vstack. destruct a as [|r a]; [discriminate|].
  destruct b as [|r' b]; [discriminate|].
  destruct (Nat.eqb _ _); [now intros [= <-] | discriminate].
Qed.

Lemma coords_ok l cs : coords l = Ok cs -> l = LineString cs.
Proof. destruct l; simpl; [now intros [= <-] | discriminate]. Qed.

Lemma add_input_line_ok bd td l o td' :
  add_input_line bd td l = (o, Ok td') ->
  vertices td' = vertices td ++ line_rows l /\
  segments td' =
    segments td ++ (if Qeq_bool bd 0 then chain (len (vertices td)) (npoints l) else []) /\
  regions td' = regions td.
Proof.
  unfold add_input_line. intros H.
  inv_bind H. apply lift_ok, coords_ok in Hc. subst l.
  inv_bind Hk. apply lift_ok, np_array_ok in Hc. subst a0.
  inv_bind Hk0. apply lift_ok, slice_xy_ok in Hc. destruct Hc as [-> _].
  inv_bind Hk. apply lift_ok, vstack_ok in Hc. apply ret_ok in Hk0. subst td' a0.
  cbn [vertices segments regions line_rows]. unfold npoints. cbn [line_rows].
  rewrite chain_spec. repeat split.
  destruct (Qeq_bool bd 0); [reflexivity | now rewrite app_nil_r].
Qed.

Lemma add_buffer_line_ok td l o td' :
  add_buffer_line td l = (o, Ok td') ->
  vertices td' = vertices td ++ line_rows l /\
  segments td' = segments td ++ chain (len (vertices td)) (npoints l) /\
  regions td' = regions td.
Proof.
  unfold add_buffer_line. intros H.
  inv_bind H. apply lift_ok, coords_ok in Hc. subst l.
  inv_bind Hk. apply lift_ok, np_array_ok in Hc. subst a0.
  inv_bind Hk0. apply lift_ok, slice_xy_ok in Hc. destruct Hc as [-> _].
  inv_bind Hk. apply lift_ok, vstack_ok in Hc. apply ret_ok in Hk0. subst td' a0.
  cbn [vertices segments regions line_rows]. unfold npoints. cbn [line_rows].
  rewrite chain_spec. repeat split.
Qed.

Lemma chains_app ms : forall off m,
  chains off (ms ++ [m]) = chains off ms ++ chain (off + total ms) m.
Proof.
  induction ms as [|m0 ms IH]; intros off m; cbn [chains total app].
  - now rewrite Z.add_0_r, app_nil_r.
  - rewrite IH, <- app_assoc. do 3 f_equal. lia.
Qed.

Lemma len_flat_map_rows ls : len (flat_map line_rows ls) = total (map npoints ls).
Proof.
  induction ls as [|l ls IH]; [reflexivity|].
  cbn [flat_map map total]. now rewrite len_app, IH.
Qed.

Lemma npoints_nonneg ls : Forall (fun m => (0 <= m)%Z) (map npoints ls).
Proof. apply Forall_forall. intros m Hm. apply in_map_iff in Hm. destruct Hm as [l [<- _]]. apply len_nonneg. Qed.

Lemma total_nonneg ms : Forall (fun m => (0 <= m)%Z) ms -> (0 <= total ms)%Z.
Proof. induction 1; cbn [total]; lia. Qed.

Lemma fold_input_lines_ok bd ls td o td' :
  foldM (add_input_line bd) ls td = (o, Ok td') ->
  vertices td' = vertices td ++ flat_map line_rows ls /\
  segments td' =
    segments td ++
    (if Qeq_bool bd 0 then chains (len (vertices td)) (map npoints ls) else []) /\
  regions td' = regions td.
Proof.
  revert ls td o td'.
  apply (foldM_ok_inv (fun acc0 acc xs =>
    vertices acc = vertices acc0 ++ flat_map line_rows xs /\
    segments acc =
      segments acc0 ++
      (if Qeq_bool bd 0 then chains (len (vertices acc0)) (map npoints xs) else []) /\
    regions acc = regions acc0)).
  - intros acc. cbn [flat_map map chains]. rewrite !app_nil_r.
    destruct (Qeq_bool bd 0); now rewrite ?app_nil_r.
  - intros acc0 acc xs x o acc' (Hv & Hs & Hr) Hstep.
    apply add_input_line_ok in Hstep. destruct Hstep as (Hv' & Hs' & Hr').
    rewrite Hv', Hs', Hr', Hv, Hs, Hr.
    rewrite flat_map_app, map_app. cbn [flat_map map]. rewrite app_nil_r.
    rewrite <- !app_assoc. repeat split.
    destruct (Qeq_bool bd 0); [|reflexivity].
    now rewrite chains_app, len_app, len_flat_map_rows.
Qed.

Lemma fold_buffer_lines_ok ls td o td' :
  foldM add_buffer_line ls td = (o, Ok td') ->
  vertices td' = vertices td ++ flat_map line_rows ls /\
  segments td' = segments td ++ chains (len (vertices td)) (map npoints ls) /\
  regions td' = regions td.
Proof.
  revert ls td o td'.
  apply (foldM_ok_inv (fun acc0 acc xs =>
    vertices acc = vertices acc0 ++ flat_map line_rows xs /\
    segments acc = segments acc0 ++ chains (len (vertices acc0)) (map npoints xs) /\
    regions acc = regions acc0)).
  - intros acc. cbn [flat_map map chains]. now rewrite !app_nil_r.
  - intros acc0 acc xs x o acc' (Hv & Hs & Hr) Hstep.
    apply add_buffer_line_ok in Hstep. destruct Hstep as (Hv' & Hs' & Hr').
    rewrite Hv', Hs', Hr', Hv, Hs, Hr.
    rewrite flat_map_app, map_app. cbn [flat_map map]. rewrite app_nil_r.
    rewrite <- !app_assoc. repeat split.
    now rewrite chains_app, len_app, len_flat_map_rows.
Qed.

Lemma add_boundary_ok bp o td :
  add_boundary bp = (o, Ok td) ->
  vertices td = map row_of (removelast (shell bp)) /\
  segments td = loop (len (vertices td)) /\
  regions td = None /\
  (1 <= len (vertices td))%Z.
Proof.
  unfold add_boundary. intros H. inv_bind H. apply lift_ok in Hc.
  assert (Hring : a = shell bp).
  { unfold boundary in Hc. destruct (shell bp) as [|c sh]; [discriminate|].
    destruct (holes bp); now injection Hc as <-. }
  subst a. inv_bind Hk. apply lift_ok, np_array_ok in Hc0. subst a.
  inv_bind Hk0. apply lift_ok in Hc0. apply ret_ok in Hk. subst td.
  cbn [vertices segments regions].
  destruct (Z_le_gt_dec (len (map row_of (removelast (shell bp)))) 0) as [Hn|Hn].
  - rewrite loop_empty in Hc0 by assumption. discriminate.
  - rewrite loop_spec in Hc0 by lia. injection Hc0 as <-. repeat split. lia.
Qed.

Lemma prepare_ok G lines polygons s bd out glines reps bls :
  prepare G lines polygons s bd = (out, Ok (glines, reps, bls)) ->
  exists o1 graded o2 polys,
    mapM (grade G s) (lines_new G lines s) = (o1, Ok graded) /\
    mapM (fun p => grade G s (boundary p)) (polygons_new polygons) = (o2, Ok polys) /\
    glines = graded ++ polys /\
    if Qlt_bool 0 bd then
      bls = buf_lines_of
              (simplify G (cascaded_union G (map (fun l => buffer G l bd) glines)) (s / 2)) /\
      exists o3,
        rep_points_of G
          (simplify G (cascaded_union G (map (fun l => buffer G l bd) glines)) (s / 2))
          (5 * (s * s)) = (o3, Ok reps)
    else reps = [] /\ bls = [].
Proof.
  unfold prepare. intros H.
  inv_bind_as H o0 u0 Hnote H. clear Hnote.
  inv_bind_as H o0' u1 Hpr H. clear Hpr. cbv zeta in H.
  inv_bind_as H o1 graded Hgr H.
  inv_bind_as H o2 polys Hpo H.
  inv_bind_as H o3 u2 Hpr H. clear Hpr.
  exists o1, graded, o2, polys. split; [exact Hgr|]. split; [exact Hpo|].
  destruct (Qlt_bool 0 bd).
  - inv_bind_as H o4 rp Hrp H. apply ret_ok in H. injection H as <- <- <-.
    split; [reflexivity|]. split; [reflexivity|]. now exists o4.
  - apply ret_ok in H. injection H as <- <- <-. auto.
Qed.

Lemma assemble_ok bp glines reps bls bd o td :
  assemble bp glines reps bls bd = (o, Ok td) ->
  let brows := map row_of (removelast (shell bp)) in
  let n := len brows in
  (1 <= n)%Z /\
  vertices td =
    brows ++ flat_map line_rows glines ++
    (if Qlt_bool 0 bd then flat_map line_rows bls else []) /\
  segments td =
    loop n ++
    (if Qeq_bool bd 0 then chains n (map npoints glines) else []) ++
    (if Qlt_bool 0 bd
     then chains (n + total (map npoints glines)) (map npoints bls) else []) /\
  regions td = (if Qlt_bool 0 bd then hd_error reps else None).
Proof.
  intros H brows n. unfold assemble in H.
  inv_bind_as H o0 u0 Hpr H. clear Hpr.
  inv_bind_as H o1 td0 Hb H.
  apply add_boundary_ok in Hb. destruct Hb as (Hv0 & Hs0 & Hr0 & Hn).
  inv_bind_as H o2 td1 Hl H.
  apply fold_input_lines_ok in Hl. destruct Hl as (Hv1 & Hs1 & Hr1).
  rewrite Hv0 in *. fold brows in Hv1, Hs1, Hs0, Hn. fold n in Hs1, Hs0, Hn.
  inv_bind_as H o3 td2 Hbl H. destruct (Qlt_bool 0 bd).
  - apply fold_buffer_lines_ok in Hbl. destruct Hbl as (Hv2 & Hs2 & Hr2).
    inv_bind_as H o4 r Hix H. apply lift_ok in Hix. apply ret_ok in H. subst td.
    cbn [vertices segments regions]. split; [exact Hn|].
    rewrite Hv2, Hs2, Hv1, Hs1, Hs0. rewrite <- !app_assoc.
    rewrite len_app, len_flat_map_rows. fold n.
    repeat split.
    unfold index in Hix. destruct reps; [discriminate|]. now injection Hix as ->.
  - apply ret_ok in Hbl. apply ret_ok in H. subst.
    split; [exact Hn|]. rewrite Hv1, Hs1, Hs0, Hr1, Hr0, !app_nil_r. repeat split.
Qed.

Lemma triMeshgen_tri_data_ok G bp lines points polygons s ea bd out td :
  triMeshgen_tri_data G bp lines points polygons s ea bd = (out, Ok td) ->
  exists o1 glines reps bls o2,
    prepare G lines polygons s bd = (o1, Ok (glines, reps, bls)) /\
    assemble bp glines reps bls bd = (o2, Ok td).
Proof.
  unfold triMeshgen_tri_data. intros H. inv_bind H.
  destruct a as [[glines reps] bls]. now exists o, glines, reps, bls, o0.
Qed.

Lemma Qlt_bool_pos bd : 0 < bd -> Qlt_bool 0 bd = true /\ Qeq_bool bd 0 = false.
Proof.
  intros H. split; [now apply Qlt_bool_iff|].
  destruct (Qeq_bool bd 0) eqn:E; [|reflexivity].
  apply Qeq_bool_iff in E. lra.
Qed.

Lemma Qlt_bool_zero bd : bd == 0 -> Qlt_bool 0 bd = false /\ Qeq_bool bd 0 = true.
Proof.
  intros H. split; [|now apply Qeq_bool_iff].
  destruct (Qlt_bool 0 bd) eqn:E; [|reflexivity].
  apply Qlt_bool_iff in E. lra.
Qed.

Lemma length_removelast' {A} (l : list A) :
  List.length (removelast l) = (List.length l - 1)%nat.
Proof.
  destruct (rev l) as [|x r] eqn:E.
  - rewrite <- (rev_involutive l), E. reflexivity.
  - rewrite <- (rev_involutive l), E. cbn [rev].
    rewrite removelast_last, length_app. cbn [List.length]. lia.
Qed.

(** ** The assembled PSLG *)

(** C2.  In the PSLG assembled by triMeshgen from a bounding polygon
    whose ring has at least three stored coordinates (every polygon of
    the geometry library has at least four), every segment has two
    distinct indices in [0, len(vertices)). *)
Theorem segments_index_valid (G : Shapely) (bounding_poly : Polygon)
    (lines : list LineGeom) (points : list coord) (polygons : list PolyGeom)
    (target_length element_area buffer_dist : Q) (out : list string) (td : tri_data) :
  (3 <= List.length (shell bounding_poly))%nat ->
  triMeshgen_tri_data G bounding_poly lines points polygons
    target_length element_area buffer_dist = (out, Ok td) ->
  Forall (valid_segment (len (vertices td))) (segments td).
Proof.
  intros Hring Hrun.
  apply triMeshgen_tri_data_ok in Hrun.
  destruct Hrun as (o1 & glines & reps & bls & o2 & _ & Hasm).
  apply assemble_ok in Hasm. cbv zeta in Hasm.
  destruct Hasm as (Hn & Hv & Hs & _).
  set (n := len (map row_of (removelast (shell bounding_poly)))) in *.
  assert (Hn2 : (2 <= n)%Z).
  { unfold n, len. rewrite length_map, length_removelast'. lia. }
  assert (Hlen : len (vertices td) =
                 (n + total (map npoints glines) +
                  (if Qlt_bool 0 buffer_dist then total (map npoints bls) else 0))%Z).
  { rewrite Hv, !len_app, len_flat_map_rows. fold n.
    destruct (Qlt_bool 0 buffer_dist); [rewrite len_flat_map_rows | unfold len; simpl]; lia. }
  pose proof (total_nonneg _ (npoints_nonneg glines)) as Hg.
  pose proof (total_nonneg _ (npoints_nonneg bls)) as Hb.
  rewrite Hs, Hlen. apply Forall_forall. intros seg Hin.
  unfold valid_segment.
  apply in_app_or in Hin. destruct Hin as [Hin|Hin].
  - apply in_loop in Hin; [|lia]. destruct Hin as (H1 & H2 & H3).
    destruct (Qlt_bool 0 buffer_dist); repeat split; try lia; now apply H3.
  - apply in_app_or in Hin. destruct Hin as [Hin|Hin].
    + destruct (Qeq_bool buffer_dist 0); [|contradiction].
      apply in_chains in Hin; [|apply npoints_nonneg].
      destruct (Qlt_bool 0 buffer_dist); lia.
    + destruct (Qlt_bool 0 buffer_dist); [|contradiction].
      apply in_chains in Hin; [|apply npoints_nonneg]. lia.
Qed.

(** Witness of C2: the rectangular domain with two lines, buffered. *)
Lemma segments_index_valid_witness :
  exists out td,
    triMeshgen_tri_data Rect.geom domain [line_a; line_b] [] [] 20 5000 25 = (out, Ok td) /\
    Forall (valid_segment (len (vertices td))) (segments td).
Proof.
  eexists. eexists. split; [vm_compute; reflexivity|].
  eapply (segments_index_valid Rect.geom domain [line_a; line_b] [] [] 20 5000 25).
  - simpl. lia.
  - vm_compute. reflexivity.
Defined.

(** C3.  With [buffer_dist > 0] the segments of the PSLG are the
    boundary loop and one open chain per buffer-boundary line, and no
    segment has an end among the vertices of the graded lines; with
    [buffer_dist = 0] they are the boundary loop and one open chain per
    graded line, and no buffer-boundary vertex or segment is added. *)
Theorem constraint_source_exclusive (G : Shapely) (bounding_poly : Polygon)
    (lines : list LineGeom) (points : list coord) (polygons : list PolyGeom)
    (target_length element_area buffer_dist : Q) (out : list string) (td : tri_data) :
  triMeshgen_tri_data G bounding_poly lines points polygons
    target_length element_area buffer_dist = (out, Ok td) ->
  exists out1 glines reps bls,
    prepare G lines polygons target_length buffer_dist = (out1, Ok (glines, reps, bls)) /\
    let brows := map row_of (removelast (shell bounding_poly)) in
    let n := len brows in
    let m := total (map npoints glines) in
    (0 < buffer_dist ->
       bls = buf_lines_of
               (simplify G
                  (cascaded_union G (map (fun l => buffer G l buffer_dist) glines))
                  (target_length / 2)) /\
       vertices td = brows ++ flat_map line_rows glines ++ flat_map line_rows bls /\
       segments td = loop n ++ chains (n + m) (map npoints bls) /\
       Forall (fun seg => ~ touches n (n + m) seg) (segments td)) /\
    (buffer_dist == 0 ->
       vertices td = brows ++ flat_map line_rows glines /\
       segments td = loop n ++ chains n (map npoints glines)).
Proof.
  intros Hrun.
  apply triMeshgen_tri_data_ok in Hrun.
  destruct Hrun as (o1 & glines & reps & bls & o2 & Hprep & Hasm).
  exists o1, glines, reps, bls. split; [exact Hprep|].
  intros brows n m.
  apply assemble_ok in Hasm. cbv zeta in Hasm. fold brows in Hasm. fold n in Hasm.
  fold m in Hasm. destruct Hasm as (Hn & Hv & Hs & _).
  apply prepare_ok in Hprep.
  destruct Hprep as (_ & _ & _ & _ & _ & _ & _ & Hbuf).
  split.
  - intros Hpos. destruct (Qlt_bool_pos _ Hpos) as [Hlt Heq].
    rewrite Hlt in Hbuf, Hv, Hs. rewrite Heq in Hs. cbn [app] in Hs.
    destruct Hbuf as [Hbls _].
    split; [exact Hbls|]. split; [exact Hv|]. split; [exact Hs|].
    rewrite Hs. apply Forall_forall. intros seg Hin Htouch.
    pose proof (total_nonneg _ (npoints_nonneg glines)) as Hg. fold m in Hg.
    apply in_app_or in Hin. destruct Hin as [Hin|Hin].
    + apply in_loop in Hin; [|lia]. unfold touches in Htouch. lia.
    + apply in_chains in Hin; [|apply npoints_nonneg]. unfold touches in Htouch. lia.
  - intros Hz. destruct (Qlt_bool_zero _ Hz) as [Hlt Heq].
    rewrite Hlt in Hv, Hs. rewrite Heq in Hs. rewrite !app_nil_r in *.
    split; assumption.
Qed.

(** Witness of C3: the rectangular domain with two lines, buffered by
    25: four boundary vertices, eight graded-line vertices without a
    segment, and two buffer rings of five points each. *)
Lemma constraint_source_exclusive_witness :
  exists out td,
    triMeshgen_tri_data Rect.geom domain [line_a; line_b] [] [] 20 5000 25 = (out, Ok td) /\
    segments td = loop 4 ++ chains 12 [5; 5]%Z /\
    Forall (fun seg => ~ touches 4 12 seg) (segments td).
Proof.
  assert (Hrun : exists out td,
    triMeshgen_tri_data Rect.geom domain [line_a; line_b] [] [] 20 5000 25 = (out, Ok td))
    by (eexists; eexists; vm_compute; reflexivity).
  destruct Hrun as (out & td & Hrun). exists out, td. split; [exact Hrun|].
  destruct (constraint_source_exclusive Rect.geom domain [line_a; line_b] [] [] 20 5000 25
              out td Hrun) as (out1 & glines & reps & bls & Hprep & Hpos & _).
  vm_compute in Hprep. injection Hprep as _ <- _ <-.
  destruct (Hpos eq_refl) as (_ & _ & Hs & Hno).
  split; [exact Hs | exact Hno].
Defined.

(** ** Filtering of short lines *)

Lemma keep_if_long_filter G s cs :
  keep_if_long G s cs = filter (long_enough G s) [LineString cs].
Proof.
  unfold keep_if_long, long_enough. cbn [filter].
  destruct (Qlt_bool _ _); reflexivity.
Qed.

Lemma lines_new_filter G lines s :
  lines_new G lines s = filter (long_enough G s) (flatten_lines lines).
Proof.
  unfold lines_new, flatten_lines.
  induction lines as [|g lines IH]; [reflexivity|].
  cbn [flat_map]. rewrite filter_app, IH. f_equal.
  destruct g as [cs|parts]; [apply keep_if_long_filter|].
  induction parts as [|cs parts IHp]; [reflexivity|].
  cbn [flat_map map]. rewrite keep_if_long_filter, IHp.
  change (LineString cs :: map LineString parts)
    with ([LineString cs] ++ map LineString parts).
  now rewrite filter_app.
Qed.



(** ** Refinement regions *)

Lemma mapM_const_length {A B} (c : M B) (xs : list A) o ys :
  mapM (fun _ => c) xs = (o, Ok ys) ->
  List.length ys = List.length xs /\ forall y, In y ys -> exists o', c = (o', Ok y).
Proof.
  revert o ys. induction xs as [|x xs IH]; intros o ys H.
  - apply ret_ok in H. subst. split; [reflexivity | contradiction].
  - cbn [mapM] in H. inv_bind_as H o1 y Hy H. inv_bind_as H o2 ys' Hys H.
    apply ret_ok in H. subst ys. apply IH in Hys. destruct Hys as [Hlen Hall].
    split; [cbn [List.length]; lia|]. intros y' [<-|Hin]; [now exists o1 | now apply Hall].
Qed.

(** X8.  One region row is collected per component of the union, each
    with area 5 x target_length^2; in a multi-part union every row is
    built from component 1. *)
Lemma rep_points_per_component G u area o reps :
  rep_points_of G u area = (o, Ok reps) ->
  List.length reps = List.length (components u) /\
  match u with
  | SimplePolygon p => reps = [rep_row G p area]
  | MultiPolygon ps =>
      forall r, In r reps -> exists p1, nth_error ps 1 = Some p1 /\ r = rep_row G p1 area
  end.
Proof.
  destruct u as [p|ps]; cbn [rep_points_of components]; intros H.
  - apply ret_ok in H. subst. split; reflexivity.
  - apply mapM_const_length in H. destruct H as [Hlen Hall]. split; [exact Hlen|].
    intros r Hr. destruct (Hall r Hr) as [o' Hc].
    inv_bind_as Hc o1 p1 Hix Hc. apply lift_ok in Hix. apply ret_ok in Hc.
    unfold index in Hix. destruct (nth_error ps 1) as [p|]; [|discriminate].
    injection Hix as ->. now exists p1.
Qed.

(** X9.  Of the region rows only the first is stored in [tri_data]. *)
Lemma regions_first_row G bp lines points polygons s ea bd out td :
  0 < bd ->
  triMeshgen_tri_data G bp lines points polygons s ea bd = (out, Ok td) ->
  exists o1 glines reps bls,
    prepare G lines polygons s bd = (o1, Ok (glines, reps, bls)) /\
    regions td = hd_error reps.
Proof.
  intros Hpos Hrun. apply triMeshgen_tri_data_ok in Hrun.
  destruct Hrun as (o1 & glines & reps & bls & o2 & Hprep & Hasm).
  exists o1, glines, reps, bls. split; [exact Hprep|].
  apply assemble_ok in Hasm. cbv zeta in Hasm. destruct Hasm as (_ & _ & _ & Hr).
  destruct (Qlt_bool_pos _ Hpos) as [Hlt _]. now rewrite Hlt in Hr.
Qed.

(** C4, at two lines far from each other buffered by 25: the union has
    the components [buffer_a] and [buffer_b]; both region rows carry the
    representative point (500, 530) of [buffer_b] (component 1), which
    is not inside [buffer_a] (component 0). *)
Theorem region_seed_outside_component :
  exists out,
    simplify Rect.geom
      (cascaded_union Rect.geom (map (fun l => buffer Rect.geom l 25) [graded_a; graded_b]))
      (20 / 2) = MultiPolygon [buffer_a; buffer_b] /\
    prepare Rect.geom [line_a; line_b] [] 20 25 =
      (out, Ok ([graded_a; graded_b],
                [rep_row Rect.geom buffer_b 2000; rep_row Rect.geom buffer_b 2000],
                [boundary buffer_a; boundary buffer_b])) /\
    representative_point Rect.geom buffer_b = XY 500 530 /\
    Rect.contains buffer_b (XY 500 530) = true /\
    Rect.contains buffer_a (XY 500 530) = false.
Proof.
  eexists. repeat split.
Qed.

(** C5, at the same input: two region rows are collected, each with area
    5 x 20^2 = 2000, and [tri_data] gets the single row
    [500, 530, 0, 2000]. *)
Theorem regions_only_first_attached :
  exists out glines reps bls out' td,
    prepare Rect.geom [line_a; line_b] [] 20 25 = (out, Ok (glines, reps, bls)) /\
    reps = [[500; 530; 0; 2000]; [500; 530; 0; 2000]] /\
    triMeshgen_tri_data Rect.geom domain [line_a; line_b] [] [] 20 5000 25 = (out', Ok td) /\
    regions td = Some [500; 530; 0; 2000].
Proof.
  do 6 eexists. repeat split.
Qed.

(** ** z-coordinates *)

(** The rows appended for a graded line or a buffer boundary are (x, y)
    pairs. *)
Lemma line_rows_xy l r : In r (line_rows l) -> List.length r = 2%nat.
Proof.
  destruct l as [cs|]; [|contradiction]. cbn [line_rows]. rewrite map_map.
  intros H. apply in_map_iff in H. destruct H as [c [<- _]]. destruct c; reflexivity.
Qed.

(** X10.  The rows of the boundary ring are stored as they come, z
    included, at the head of the vertex array. *)
Lemma boundary_rows_as_given G bp lines points polygons s ea bd out td :
  triMeshgen_tri_data G bp lines points polygons s ea bd = (out, Ok td) ->
  firstn (List.length (removelast (shell bp))) (vertices td) =
  map row_of (removelast (shell bp)).
Proof.
  intros Hrun. apply triMeshgen_tri_data_ok in Hrun.
  destruct Hrun as (o1 & glines & reps & bls & o2 & _ & Hasm).
  apply assemble_ok in Hasm. cbv zeta in Hasm. destruct Hasm as (_ & Hv & _).
  rewrite Hv. rewrite <- (length_map row_of). rewrite firstn_app, Nat.sub_diag.
  cbn [firstn]. now rewrite firstn_all, app_nil_r.
Qed.

(** C10, at a bounding polygon with z = 7 and no lines: the vertex array
    has three columns, the z of the ring is kept; with a line inside,
    stacking the two-column rows of the line under it fails. *)
Theorem boundary_z_not_discarded :
  (exists out td,
     triMeshgen_tri_data Rect.geom domain_z [] [] [] 2 5000 0 = (out, Ok td) /\
     vertices td = [[0; 0; 7]; [10; 0; 7]; [10; 10; 7]; [0; 10; 7]]) /\
  (exists out,
     triMeshgen_tri_data Rect.geom domain_z [line_z] [] [] 2 5000 0 = (out, Raise ValueError)) /\
  (exists out td,
     triMeshgen_tri_data Rect.geom domain [line_z] [] [] 2 5000 0 = (out, Ok td) /\
     vertices td =
       [[0; 0]; [1000; 0]; [1000; 800]; [0; 800]; [2; 2]; [4; 2]; [6; 2]; [8; 2]]).
Proof.
  split; [|split].
  - do 2 eexists. split; reflexivity.
  - eexists. reflexivity.
  - do 2 eexists. split; reflexivity.
Qed.

(** * Further properties of the code *)

(** ** grader: errors and the shape of its result *)

Lemma lift_ok_log {A} (r : result A) out a : lift r = (out, Ok a) -> out = [] /\ r = Ok a.
Proof. unfold lift. intros [= <- ->]. auto. Qed.

Lemma ret_ok_log {A} (x : A) out a : ret x = (out, Ok a) -> out = [] /\ x = a.
Proof. unfold ret. intros [= <- ->]. auto. Qed.

Lemma py_div_ok a s q : py_div a s = Ok q -> ~ s == 0 /\ q = a / s.
Proof.
  unfold py_div. destruct (Qeq_bool s 0) eqn:E; [discriminate|].
  intros [= <-]. split; [|reflexivity]. intros H. apply Qeq_bool_iff in H. congruence.
Qed.

(** X1.  A target spacing of zero makes grader fail on the division
    [line.length/target_length], whatever the line. *)
Theorem grader_zero_spacing (G : Shapely) (shapein : LineGeom) (s : Q) :
  s == 0 -> grader G shapein "line" s = ([], Raise ZeroDivisionError).
Proof.
  intros Hs. unfold grader. simpl String.eqb. cbv iota.
  unfold py_div. apply Qeq_bool_iff in Hs. rewrite Hs. reflexivity.
Qed.

Lemma grader_zero_spacing_witness :
  grader Rect.geom line12 "line" (0 # 5) = ([], Raise ZeroDivisionError).
Proof. apply (grader_zero_spacing Rect.geom line12 (0 # 5)). reflexivity. Defined.

Lemma py_int_nonpos x : x <= 0 -> (py_int x <= 0)%Z.
Proof.
  destruct x as [n d]. unfold Qle, py_int. simpl. intros H.
  assert (Hn : (n <= 0)%Z) by lia.
  replace n with (- (- n))%Z by lia. rewrite Z.quot_opp_l by lia.
  assert (0 <= - n ÷ Z.pos d)%Z by (apply Z.quot_pos; lia). lia.
Qed.

(** X2.  A negative target spacing never grades a line: the sample range
    is empty, one coordinate is collected and the line constructor
    rejects it. *)
Theorem grader_negative_spacing (G : Shapely) (cs : list coord) (lastc : coord) (s : Q) :
  s < 0 -> 0 <= length G (LineString cs) ->
  index_last cs = Ok lastc ->
  grader G (LineString cs) "line" s = ([], Raise ValueError).
Proof.
  intros Hs HL Hlast. unfold grader. simpl String.eqb. cbv iota.
  assert (Hdiv : py_div (length G (LineString cs)) s = Ok (length G (LineString cs) / s)).
  { unfold py_div. destruct (Qeq_bool s 0) eqn:E; [|reflexivity].
    apply Qeq_bool_iff in E. lra. }
  rewrite Hdiv, bind_lift_ok. simpl coords. rewrite bind_lift_ok, Hlast, bind_lift_ok.
  assert (Hq : length G (LineString cs) / s <= 0).
  { unfold Qdiv. assert (Hi : / s < 0).
    { apply Qnot_le_lt. intros Hc.
      assert (Hone : s * / s == 1) by (apply Qmult_inv_r; lra). nra. }
    nra. }
  rewrite (range_nonpos _ (py_int_nonpos _ Hq)). reflexivity.
Qed.

Lemma grader_negative_spacing_witness :
  grader Rect.geom line12 "line" (-5) = ([], Raise ValueError).
Proof.
  apply (grader_negative_spacing Rect.geom [XY 0 0; XY 12 0] (XY 12 0) (-5)).
  - reflexivity.
  - vm_compute. discriminate.
  - reflexivity.
Defined.

(** X3.  A multi-part geometry has no coordinate sequence: grader fails
    on [line.coords] for every non-zero spacing. *)
Theorem grader_multipart (G : Shapely) (parts : list (list coord)) (s : Q) :
  ~ s == 0 ->
  grader G (MultiLineString parts) "line" s = ([], Raise NotImplementedError).
Proof.
  intros Hs. unfold grader. simpl String.eqb. cbv iota.
  unfold py_div. destruct (Qeq_bool s 0) eqn:E.
  - apply Qeq_bool_iff in E. contradiction.
  - rewrite bind_lift_ok. reflexivity.
Qed.

Lemma grader_multipart_witness :
  grader Rect.geom (MultiLineString [[XY 0 0; XY 12 0]; [XY 20 0; XY 30 0]]) "line" 5
  = ([], Raise NotImplementedError).
Proof.
  apply (grader_multipart Rect.geom [[XY 0 0; XY 12 0]; [XY 20 0; XY 30 0]] 5).
  vm_compute. discriminate.
Defined.

Lemma grader_ok_inv (G : Shapely) (shapein : LineGeom) (type : string)
    (s : Q) (out : list string) (l : LineGeom) :
  grader G shapein type s = (out, Ok (Some l)) ->
  type = "line"%string /\ out = [] /\ ~ s == 0 /\
  exists cs lastc,
    shapein = LineString cs /\ index_last cs = Ok lastc /\
    l = LineString (samples G shapein s ++ [lastc]) /\
    (1 <= py_int (length G shapein / s))%Z /\
    len (samples G shapein s ++ [lastc]) = (py_int (length G shapein / s) + 1)%Z.
Proof.
  unfold grader. destruct (String.eqb type "line") eqn:Ety.
  - intros H. apply String.eqb_eq in Ety.
    inv_bind_as H o1 q Hq H. apply lift_ok_log in Hq. destruct Hq as [-> Hq].
    apply py_div_ok in Hq. destruct Hq as [Hs ->].
    inv_bind_as H o2 cs Hcs H. apply lift_ok_log in Hcs. destruct Hcs as [-> Hcs].
    apply coords_ok in Hcs.
    inv_bind_as H o3 lastc Hl H. apply lift_ok_log in Hl. destruct Hl as [-> Hl].
    inv_bind_as H o4 l' Hn H. apply lift_ok_log in Hn. destruct Hn as [-> Hn].
    apply ret_ok_log in H. destruct H as [-> H]. injection H as <-.
    fold (samples G shapein s) in Hn. subst. cbn [app].
    split; [reflexivity|]. split; [reflexivity|]. split; [exact Hs|].
    exists cs, lastc. split; [reflexivity|]. split; [exact Hl|].
    set (line := LineString cs) in *.
    assert (Hne : samples G line s <> []).
    { intros E. rewrite E in Hn. discriminate. }
    assert (Hlen : (1 <= py_int (length G line / s))%Z).
    { destruct (Z_le_gt_dec (py_int (length G line / s)) 0) as [Hle|Hgt]; [|lia].
      exfalso. apply Hne. unfold samples. now rewrite range_nonpos. }
    split.
    + destruct (samples G line s) as [|a r]; [contradiction|].
      rewrite LineString_new_two in Hn. now injection Hn as <-.
    + split; [exact Hlen|]. rewrite len_app. unfold len at 1, samples.
      rewrite length_map. unfold range. rewrite length_map, length_seq.
      unfold len. simpl. lia.
  - intros H. inv_bind_as H o1 u Hp H. apply ret_ok in H. discriminate.
Qed.




(** ** triMeshgen: the boundary loop, regions and failures *)

Lemma loop_cycle n :
  (1 <= n)%Z -> loop n = map (fun i => (i, (i + 1) mod n)%Z) (range n).
Proof.
  intros Hn. unfold loop. rewrite (range_last n Hn), map_app. cbn [map]. f_equal.
  - apply map_ext_in. intros i Hi. apply in_range in Hi.
    rewrite Z.mod_small by lia. reflexivity.
  - replace (n - 1 + 1)%Z with n by lia. now rewrite Z_mod_same_full.
Qed.

Lemma loop_length n : (1 <= n)%Z -> List.length (loop n) = Z.to_nat n.
Proof.
  intros Hn. rewrite loop_cycle by assumption.
  unfold range. now rewrite !length_map, length_seq.
Qed.

(** X6.  The first [n] segments of the PSLG, [n] being the number of
    stored ring coordinates less the closing one, are the closed loop
    over the boundary vertices: segment [i] joins vertex [i] to vertex
    [(i + 1) mod n]. *)
Theorem boundary_loop_closed (G : Shapely) (bounding_poly : Polygon)
    (lines : list LineGeom) (points : list coord) (polygons : list PolyGeom)
    (target_length element_area buffer_dist : Q) (out : list string) (td : tri_data) :
  triMeshgen_tri_data G bounding_poly lines points polygons
    target_length element_area buffer_dist = (out, Ok td) ->
  let n := len (removelast (shell bounding_poly)) in
  (1 <= n)%Z /\
  firstn (Z.to_nat n) (segments td) = map (fun i => (i, (i + 1) mod n)%Z) (range n).
Proof.
  intros Hrun n. apply triMeshgen_tri_data_ok in Hrun.
  destruct Hrun as (o1 & glines & reps & bls & o2 & _ & Hasm).
  apply assemble_ok in Hasm. cbv zeta in Hasm. destruct Hasm as (Hn & _ & Hs & _).
  assert (En : len (map row_of (removelast (shell bounding_poly))) = n).
  { unfold n, len. now rewrite length_map. }
  rewrite En in Hn, Hs. split; [exact Hn|].
  rewrite Hs, <- (loop_length n Hn), firstn_app, Nat.sub_diag, firstn_all. cbn [firstn].
  rewrite app_nil_r. now apply loop_cycle.
Qed.

Lemma boundary_loop_closed_witness :
  exists out td,
    triMeshgen_tri_data Rect.geom domain [line_a; line_b] [] [] 20 5000 0 = (out, Ok td) /\
    firstn 4 (segments td) = [(0, 1); (1, 2); (2, 3); (3, 0)]%Z.
Proof.
  assert (Hrun : exists out td,
    triMeshgen_tri_data Rect.geom domain [line_a; line_b] [] [] 20 5000 0 = (out, Ok td))
    by (eexists; eexists; vm_compute; reflexivity).
  destruct Hrun as (out & td & Hrun). exists out, td. split; [exact Hrun|].
  destruct (boundary_loop_closed Rect.geom domain [line_a; line_b] [] [] 20 5000 0
              out td Hrun) as [_ H].
  exact H.
Defined.

(** X7.  An empty bounding polygon never yields a PSLG: its boundary is
    an empty collection, and indexing it fails. *)
Theorem empty_bounding_polygon_fails (G : Shapely) (bounding_poly : Polygon)
    (lines : list LineGeom) (points : list coord) (polygons : list PolyGeom)
    (target_length element_area buffer_dist : Q) (out : list string) (td : tri_data) :
  shell bounding_poly = [] ->
  triMeshgen_tri_data G bounding_poly lines points polygons
    target_length element_area buffer_dist <> (out, Ok td).
Proof.
  intros Hempty Hrun. apply triMeshgen_tri_data_ok in Hrun.
  destruct Hrun as (o1 & glines & reps & bls & o2 & _ & Hasm).
  apply assemble_ok in Hasm. cbv zeta in Hasm. destruct Hasm as (Hn & _).
  rewrite Hempty in Hn. unfold len in Hn. simpl in Hn. lia.
Qed.

Lemma empty_bounding_polygon_fails_witness :
  triMeshgen_tri_data Rect.geom (mkPolygon [] []) [line_a] [] [] 20 5000 0
  = (progress_lines, Raise IndexError) /\
  triMeshgen_tri_data Rect.geom (mkPolygon [] []) [line_a] [] [] 20 5000 0
  <> (progress_lines, Ok no_data).
Proof.
  split; [reflexivity|].
  apply (empty_bounding_polygon_fails Rect.geom (mkPolygon [] []) [line_a] [] [] 20 5000 0).
  reflexivity.
Defined.

Lemma rep_points_per_component_witness :
  exists o reps,
    rep_points_of Rect.geom (MultiPolygon [buffer_a; buffer_b]) 2000 = (o, Ok reps) /\
    List.length reps = 2%nat /\
    forall r, In r reps ->
      exists p1, nth_error [buffer_a; buffer_b] 1 = Some p1 /\ r = rep_row Rect.geom p1 2000.
Proof.
  assert (Hrun : exists o reps,
    rep_points_of Rect.geom (MultiPolygon [buffer_a; buffer_b]) 2000 = (o, Ok reps))
    by (eexists; eexists; vm_compute; reflexivity).
  destruct Hrun as (o & reps & Hrun). exists o, reps. split; [exact Hrun|].
  exact (rep_points_per_component Rect.geom (MultiPolygon [buffer_a; buffer_b]) 2000
           o reps Hrun).
Defined.

Lemma regions_first_row_witness :
  exists out td o1 glines reps bls,
    triMeshgen_tri_data Rect.geom domain [line_a; line_b] [] [] 20 5000 25 = (out, Ok td) /\
    prepare Rect.geom [line_a; line_b] [] 20 25 = (o1, Ok (glines, reps, bls)) /\
    regions td = hd_error reps.
Proof.
  assert (Hrun : exists out td,
    triMeshgen_tri_data Rect.geom domain [line_a; line_b] [] [] 20 5000 25 = (out, Ok td))
    by (eexists; eexists; vm_compute; reflexivity).
  destruct Hrun as (out & td & Hrun). exists out, td.
  destruct (regions_first_row Rect.geom domain [line_a; line_b] [] [] 20 5000 25 out td)
    as (o1 & glines & reps & bls & Hprep & Hreg).
  - reflexivity.
  - exact Hrun.
  - exists o1, glines, reps, bls. auto.
Defined.

Lemma boundary_rows_as_given_witness :
  exists out td,
    triMeshgen_tri_data Rect.geom domain_z [] [] [] 2 5000 0 = (out, Ok td) /\
    firstn 4 (vertices td) = [[0; 0; 7]; [10; 0; 7]; [10; 10; 7]; [0; 10; 7]].
Proof.
  assert (Hrun : exists out td,
    triMeshgen_tri_data Rect.geom domain_z [] [] [] 2 5000 0 = (out, Ok td))
    by (eexists; eexists; vm_compute; reflexivity).
  destruct Hrun as (out & td & Hrun). exists out, td. split; [exact Hrun|].
  exact (boundary_rows_as_given Rect.geom domain_z [] [] [] 2 5000 0 out td Hrun).
Defined.

(** X11.  The PSLG carries a region exactly when [buffer_dist > 0]. *)
Theorem regions_iff_buffer (G : Shapely) (bounding_poly : Polygon)
    (lines : list LineGeom) (points : list coord) (polygons : list PolyGeom)
    (target_length element_area buffer_dist : Q) (out : list string) (td : tri_data) :
  triMeshgen_tri_data G bounding_poly lines points polygons
    target_length element_area buffer_dist = (out, Ok td) ->
  (regions td <> None <-> 0 < buffer_dist).
Proof.
  intros Hrun. unfold triMeshgen_tri_data in Hrun.
  inv_bind_as Hrun o1 pre Hprep Hasm. destruct pre as [[glines reps] bls].
  unfold assemble in Hasm.
  inv_bind_as Hasm o2 u Hpr Hasm. clear Hpr.
  inv_bind_as Hasm o3 td0 Hb Hasm. apply add_boundary_ok in Hb.
  destruct Hb as (_ & _ & Hr0 & _).
  inv_bind_as Hasm o4 td1 Hl Hasm. apply fold_input_lines_ok in Hl.
  destruct Hl as (_ & _ & Hr1).
  inv_bind_as Hasm o5 td2 Hbl Hasm.
  destruct (Qlt_bool 0 buffer_dist) eqn:Hlt.
  - inv_bind_as Hasm o6 r Hix Hasm. apply ret_ok in Hasm. subst td. cbn [regions].
    apply Qlt_bool_iff in Hlt. split; [intros _; exact Hlt | discriminate].
  - apply ret_ok in Hbl. apply ret_ok in Hasm. subst.
    rewrite Hr1, Hr0. split; [congruence|].
    intros Hpos. apply Qlt_bool_iff in Hpos. congruence.
Qed.

Lemma regions_iff_buffer_witness :
  exists out td,
    triMeshgen_tri_data Rect.geom domain [line_a] [] [] 20 5000 25 = (out, Ok td) /\
    (regions td <> None <-> 0 < 25).
Proof.
  assert (Hrun : exists out td,
    triMeshgen_tri_data Rect.geom domain [line_a] [] [] 20 5000 25 = (out, Ok td))
    by (eexists; eexists; vm_compute; reflexivity).
  destruct Hrun as (out & td & Hrun). exists out, td. split; [exact Hrun|].
  exact (regions_iff_buffer Rect.geom domain [line_a] [] [] 20 5000 25 out td Hrun).
Defined.

(** X12.  When the ring of the bounding polygon has no z, every row of
    the vertex array is an (x, y) pair, whatever the lines carry. *)
Theorem vertices_xy (G : Shapely) (bounding_poly : Polygon)
    (lines : list LineGeom) (points : list coord) (polygons : list PolyGeom)
    (target_length element_area buffer_dist : Q) (out : list string) (td : tri_data) :
  forallb is_xy (shell bounding_poly) = true ->
  triMeshgen_tri_data G bounding_poly lines points polygons
    target_length element_area buffer_dist = (out, Ok td) ->
  Forall (fun r => List.length r = 2%nat) (vertices td).
Proof.
  intros Hxy Hrun. apply triMeshgen_tri_data_ok in Hrun.
  destruct Hrun as (o1 & glines & reps & bls & o2 & _ & Hasm).
  apply assemble_ok in Hasm. cbv zeta in Hasm. destruct Hasm as (_ & Hv & _).
  rewrite Hv. apply Forall_forall. intros r Hr.
  assert (Hflat : forall ls, In r (flat_map line_rows ls) -> List.length r = 2%nat).
  { intros ls Hin. apply in_flat_map in Hin. destruct Hin as [l [_ Hl]].
    now apply line_rows_xy in Hl. }
  apply in_app_or in Hr. destruct Hr as [Hr|Hr].
  - apply in_map_iff in Hr. destruct Hr as [c [<- Hc]].
    assert (Hin : In c (shell bounding_poly)).
    { destruct (shell bounding_poly) as [|c0 sh] eqn:E; [contradiction|].
      rewrite (app_removelast_last c0 (l := c0 :: sh)) by discriminate.
      apply in_or_app. now left. }
    rewrite forallb_forall in Hxy. specialize (Hxy c Hin). destruct c; [reflexivity|discriminate].
  - apply in_app_or in Hr. destruct Hr as [Hr|Hr]; [now apply (Hflat glines)|].
    destruct (Qlt_bool 0 buffer_dist); [now apply (Hflat bls) | contradiction].
Qed.

Lemma vertices_xy_witness :
  exists out td,
    triMeshgen_tri_data Rect.geom domain [line_z] [] [] 2 5000 0 = (out, Ok td) /\
    Forall (fun r => List.length r = 2%nat) (vertices td).
Proof.
  assert (Hrun : exists out td,
    triMeshgen_tri_data Rect.geom domain [line_z] [] [] 2 5000 0 = (out, Ok td))
    by (eexists; eexists; vm_compute; reflexivity).
  destruct Hrun as (out & td & Hrun). exists out, td. split; [exact Hrun|].
  apply (vertices_xy Rect.geom domain [line_z] [] [] 2 5000 0 out td); [reflexivity | exact Hrun].
Defined.

(** ** From grading to assembly *)

Lemma mapM_ok_Forall2 {A B} (f : A -> M B) (xs : list A) o ys :
  mapM f xs = (o, Ok ys) ->
  Forall2 (fun x y => exists o', f x = (o', Ok y)) xs ys.
Proof.
  revert o ys. induction xs as [|x xs IH]; intros o ys H.
  - apply ret_ok in H. subst. constructor.
  - cbn [mapM] in H. inv_bind_as H o1 y Hy H. inv_bind_as H o2 ys' Hys H.
    apply ret_ok in H. subst ys. constructor; [now exists o1 | eapply IH; eassumption].
Qed.

Lemma grade_ok_shape G s l o l' :
  grade G s l = (o, Ok l') ->
  exists cs lastc,
    l = LineString cs /\ index_last cs = Ok lastc /\
    l' = LineString (samples G l s ++ [lastc]) /\
    (2 <= len (samples G l s ++ [lastc]))%Z.
Proof.
  unfold grade. intros H. inv_bind_as H o1 r Hg H.
  destruct r as [l0|]; [|discriminate]. apply ret_ok in H. subst l0.
  apply grader_ok_inv in Hg.
  destruct Hg as (_ & _ & _ & cs & lastc & Hl & Hlast & Hl' & Hn & Hlen).
  exists cs, lastc. repeat split; try assumption. lia.
Qed.

Lemma glines_two_points (G : Shapely) (lines : list LineGeom)
    (polygons : list PolyGeom) (target_length buffer_dist : Q)
    (out : list string) (glines : list LineGeom) (reps : list (list Q))
    (bls : list LineGeom) :
  prepare G lines polygons target_length buffer_dist = (out, Ok (glines, reps, bls)) ->
  Forall (fun l => exists pts, l = LineString pts /\ (2 <= len pts)%Z) glines.
Proof.
  intros Hprep. apply prepare_ok in Hprep.
  destruct Hprep as (o1 & graded & o2 & polys & Hg & Hp & -> & _).
  apply mapM_ok_Forall2 in Hg. apply mapM_ok_Forall2 in Hp.
  apply Forall_app. split.
  - clear Hp. induction Hg as [|x y xs ys [o' Hxy] _ IH]; constructor; [|exact IH].
    apply grade_ok_shape in Hxy. destruct Hxy as (cs & lastc & _ & _ & -> & Hlen).
    eexists. split; [reflexivity | exact Hlen].
  - clear Hg. induction Hp as [|x y xs ys [o' Hxy] _ IH]; constructor; [|exact IH].
    apply grade_ok_shape in Hxy. destruct Hxy as (cs & lastc & _ & _ & -> & Hlen).
    eexists. split; [reflexivity | exact Hlen].
Qed.

(** X13.  Every line handed to the assembly is a simple line of at least
    two points: slicing its coordinate array cannot fail. *)
Theorem graded_lines_two_points (G : Shapely) (lines : list LineGeom)
    (polygons : list PolyGeom) (target_length buffer_dist : Q)
    (out : list string) (glines : list LineGeom) (reps : list (list Q))
    (bls : list LineGeom) :
  prepare G lines polygons target_length buffer_dist = (out, Ok (glines, reps, bls)) ->
  Forall (fun l => exists pts, l = LineString pts /\ (2 <= len pts)%Z) glines.
Proof.
  exact (glines_two_points G lines polygons target_length buffer_dist out glines reps bls).
Qed.

Lemma graded_lines_two_points_witness :
  exists out glines reps bls,
    prepare Rect.geom lines_mixed [] 20 25 = (out, Ok (glines, reps, bls)) /\
    Forall (fun l => exists pts, l = LineString pts /\ (2 <= len pts)%Z) glines.
Proof.
  assert (Hrun : exists out glines reps bls,
    prepare Rect.geom lines_mixed [] 20 25 = (out, Ok (glines, reps, bls)))
    by (do 4 eexists; vm_compute; reflexivity).
  destruct Hrun as (out & glines & reps & bls & Hrun). exists out, glines, reps, bls.
  split; [exact Hrun|].
  exact (graded_lines_two_points Rect.geom lines_mixed [] 20 25 out glines reps bls Hrun).
Defined.

(** X14.  An interior polygon with a hole (or an empty one) stops the
    run: its boundary is multi-part, and grader cannot read the
    coordinates of a multi-part geometry. *)
Theorem polygon_with_hole_fails (G : Shapely) (bounding_poly : Polygon)
    (lines : list LineGeom) (points : list coord) (polygons : list PolyGeom)
    (target_length element_area buffer_dist : Q) (p : Polygon)
    (out : list string) (td : tri_data) :
  In p (polygons_new polygons) -> holes p <> [] ->
  triMeshgen_tri_data G bounding_poly lines points polygons
    target_length element_area buffer_dist <> (out, Ok td).
Proof.
  intros Hin Hholes Hrun. apply triMeshgen_tri_data_ok in Hrun.
  destruct Hrun as (o1 & glines & reps & bls & o2 & Hprep & _).
  apply prepare_ok in Hprep.
  destruct Hprep as (o3 & graded & o4 & polys & _ & Hp & _).
  apply mapM_ok_Forall2 in Hp.
  assert (Hex : exists o' y, grade G target_length (boundary p) = (o', Ok y)).
  { clear -Hin Hp. induction Hp as [|x y xs ys [o' Hxy] _ IH]; [contradiction|].
    destruct Hin as [->|Hin]; [now exists o', y | now apply IH]. }
  destruct Hex as (o' & y & Hgr). apply grade_ok_shape in Hgr.
  destruct Hgr as (cs & lastc & Hb & _). unfold boundary in Hb.
  destruct (shell p); [discriminate|]. destruct (holes p); [contradiction | discriminate].
Qed.

Lemma polygon_with_hole_fails_witness :
  triMeshgen_tri_data Rect.geom domain [line_a] [] [SimplePolygon holed] 20 5000 0
  <> ([], Ok no_data).
Proof.
  apply (polygon_with_hole_fails Rect.geom domain [line_a] [] [SimplePolygon holed]
           20 5000 0 holed).
  - simpl. auto.
  - discriminate.
Defined.

Lemma chain_length off m : (1 <= m)%Z -> len (chain off m) = (m - 1)%Z.
Proof.
  intros Hm. unfold chain, len, range. rewrite !length_map, length_seq. lia.
Qed.

Lemma chains_length ms : forall off,
  Forall (fun m => (1 <= m)%Z) ms ->
  len (chains off ms) = (total ms - len ms)%Z.
Proof.
  induction ms as [|m ms IH]; intros off H; [reflexivity|].
  inversion H as [|? ? Hm Hms]; subst. cbn [chains total].
  rewrite len_app, chain_length, IH by assumption. unfold len. cbn [List.length]. lia.
Qed.

(** X15.  Without buffering, the PSLG has as many segments as it has
    vertices less one per graded line: a closed loop over the boundary
    and an open chain over each line. *)
Theorem segment_count_unbuffered (G : Shapely) (bounding_poly : Polygon)
    (lines : list LineGeom) (points : list coord) (polygons : list PolyGeom)
    (target_length element_area buffer_dist : Q) (out : list string) (td : tri_data) :
  buffer_dist == 0 ->
  triMeshgen_tri_data G bounding_poly lines points polygons
    target_length element_area buffer_dist = (out, Ok td) ->
  exists out1 glines reps bls,
    prepare G lines polygons target_length buffer_dist = (out1, Ok (glines, reps, bls)) /\
    len (segments td) = (len (vertices td) - len glines)%Z.
Proof.
  intros Hz Hrun. apply triMeshgen_tri_data_ok in Hrun.
  destruct Hrun as (o1 & glines & reps & bls & o2 & Hprep & Hasm).
  exists o1, glines, reps, bls. split; [exact Hprep|].
  apply glines_two_points in Hprep.
  apply assemble_ok in Hasm. cbv zeta in Hasm. destruct Hasm as (Hn & Hv & Hs & _).
  destruct (Qlt_bool_zero _ Hz) as [Hlt Heq]. rewrite Hlt in Hv, Hs. rewrite Heq in Hs.
  rewrite !app_nil_r in *. rewrite Hv, Hs, !len_app, len_flat_map_rows.
  assert (Hall : Forall (fun m => (1 <= m)%Z) (map npoints glines)).
  { apply Forall_forall. intros m Hm. apply in_map_iff in Hm. destruct Hm as [l [<- Hl]].
    rewrite Forall_forall in Hprep. destruct (Hprep l Hl) as (pts & -> & Hlen).
    unfold npoints, line_rows, len in *. rewrite !length_map. lia. }
  rewrite chains_length by assumption.
  unfold len at 1. rewrite loop_length by assumption.
  unfold len in *. rewrite !length_map in *. lia.
Qed.

Lemma segment_count_unbuffered_witness :
  exists out td,
    triMeshgen_tri_data Rect.geom domain [line_a; line_b] [] [] 20 5000 0 = (out, Ok td) /\
    len (segments td) = 10%Z /\ len (vertices td) = 12%Z.
Proof.
  assert (Hrun : exists out td,
    triMeshgen_tri_data Rect.geom domain [line_a; line_b] [] [] 20 5000 0 = (out, Ok td))
    by (eexists; eexists; vm_compute; reflexivity).
  destruct Hrun as (out & td & Hrun). exists out, td. split; [exact Hrun|].
  destruct (segment_count_unbuffered Rect.geom domain [line_a; line_b] [] [] 20 5000 0
              out td) as (o1 & glines & reps & bls & Hprep & Hcount).
  - reflexivity.
  - exact Hrun.
  - vm_compute in Hprep. injection Hprep as _ <- _ _.
    assert (Hv : len (vertices td) = 12%Z).
    { vm_compute in Hrun. injection Hrun as _ <-. reflexivity. }
    split; [|exact Hv]. rewrite Hcount, Hv. reflexivity.
Defined.

(** ** Runs that succeed, runs that cannot *)

Lemma bind_run {A B} (c : M A) (k : A -> M B) o1 a o2 r :
  c = (o1, Ok a) -> k a = (o2, r) -> bind c k = (o1 ++ o2, r).
Proof. intros -> Hk. unfold bind. now rewrite Hk. Qed.

Lemma all_xy_same_dim c cs :
  forallb is_xy (c :: cs) = true -> forallb (same_dim c) (c :: cs) = true.
Proof.
  intros H. rewrite forallb_forall in *. intros d Hd.
  pose proof (H c (or_introl eq_refl)) as Hc. specialize (H d Hd).
  destruct c, d; simpl in *; congruence.
Qed.

Lemma np_array_xy cs : forallb is_xy cs = true -> np_array cs = Ok (map row_of cs).
Proof.
  intros H. destruct cs as [|c cs]; [reflexivity|].
  unfold np_array. now rewrite all_xy_same_dim.
Qed.

Lemma forallb_removelast {A} (f : A -> bool) (l : list A) :
  forallb f l = true -> forallb f (removelast l) = true.
Proof.
  intros H. rewrite forallb_forall in *. intros x Hx. apply H.
  destruct l as [|a l]; [contradiction|].
  rewrite (app_removelast_last a (l := a :: l)) by discriminate.
  apply in_or_app. now left.
Qed.

Lemma add_boundary_succeeds bp :
  (2 <= List.length (shell bp))%nat -> forallb is_xy (shell bp) = true ->
  add_boundary bp =
    ([], Ok (mk_tri_data (map row_of (removelast (shell bp)))
                         (loop (len (removelast (shell bp)))) None)).
Proof.
  intros Hlen Hxy. unfold add_boundary.
  assert (Hring : match boundary bp with
                  | LineString cs => Ok cs
                  | MultiLineString parts => index parts 0
                  end = Ok (shell bp)).
  { unfold boundary. destruct (shell bp) as [|c sh]; [simpl in Hlen; lia|].
    destruct (holes bp); reflexivity. }
  rewrite Hring, bind_lift_ok.
  rewrite (np_array_xy _ (forallb_removelast _ _ Hxy)), bind_lift_ok.
  assert (Hn : (1 <= len (removelast (shell bp)))%Z).
  { unfold len. rewrite length_removelast'. lia. }
  assert (El : len (map row_of (removelast (shell bp))) = len (removelast (shell bp))).
  { unfold len. now rewrite length_map. }
  rewrite El, (loop_spec _ Hn), bind_lift_ok. reflexivity.
Qed.

Lemma index_last_cons {A} (c : A) (cs : list A) :
  exists x, index_last (c :: cs) = Ok x /\ In x (c :: cs).
Proof.
  unfold index_last. destruct (rev (c :: cs)) as [|x r] eqn:E.
  - apply (f_equal (@List.length A)) in E. rewrite length_rev in E. discriminate.
  - exists x. split; [reflexivity|]. apply in_rev. rewrite E. now left.
Qed.

Lemma grade_succeeds G s c cs :
  0 < s -> s <= length G (LineString (c :: cs)) ->
  exists lastc,
    In lastc (c :: cs) /\
    grade G s (LineString (c :: cs)) =
      ([], Ok (LineString (samples G (LineString (c :: cs)) s ++ [lastc]))).
Proof.
  intros Hs HL. destruct (index_last_cons c cs) as (lastc & Hlast & Hin).
  exists lastc. split; [exact Hin|]. unfold grade.
  rewrite (grader_line G (c :: cs) lastc s Hs Hlast).
  pose proof (py_int_div_ge_1 _ _ Hs HL) as Hn.
  assert (Hne : exists a r, samples G (LineString (c :: cs)) s = a :: r).
  { unfold samples. rewrite (range_last _ Hn), map_app.
    destruct (map _ (range _)); cbn [app map]; eauto. }
  destruct Hne as (a & r & E). rewrite E, LineString_new_two. reflexivity.
Qed.

Lemma mapM_all_ok {A B} (f : A -> M B) (P : B -> Prop) (xs : list A) :
  Forall (fun x => exists y, f x = ([], Ok y) /\ P y) xs ->
  exists ys, mapM f xs = ([], Ok ys) /\ Forall P ys.
Proof.
  induction 1 as [|x xs (y & Hy & HP) _ (ys & Hys & HPs)].
  - exists []. split; [reflexivity | constructor].
  - exists (y :: ys). split; [|now constructor]. cbn [mapM].
    rewrite (bind_run _ _ [] y [] (Ok (y :: ys)) Hy); [reflexivity|].
    now rewrite (bind_run _ _ [] ys [] (Ok (y :: ys)) Hys).
Qed.

Lemma add_input_line_succeeds bd td r0 rest pts :
  vertices td = r0 :: rest -> List.length r0 = 2%nat ->
  pts <> [] -> forallb is_xy pts = true ->
  exists td',
    add_input_line bd td (LineString pts) = ([], Ok td') /\
    exists rest', vertices td' = r0 :: rest'.
Proof.
  intros Hv Hr0 Hne Hxy. unfold add_input_line. cbn [coords].
  rewrite bind_lift_ok, (np_array_xy _ Hxy), bind_lift_ok.
  destruct pts as [|p pts]; [contradiction|]. cbn [map slice_xy]. rewrite bind_lift_ok.
  assert (Hst : vstack (vertices td)
                  (firstn 2 (row_of p) :: map (firstn 2) (map row_of pts)) =
                Ok (vertices td ++
                    firstn 2 (row_of p) :: map (firstn 2) (map row_of pts))).
  { rewrite Hv. unfold vstack. rewrite Hr0.
    cbn [forallb] in Hxy. apply andb_true_iff in Hxy. destruct Hxy as [Hp _].
    destruct p; [reflexivity | discriminate]. }
  rewrite Hst, bind_lift_ok. eexists. split; [reflexivity|].
  cbn [vertices]. rewrite Hv. eexists. reflexivity.
Qed.

Lemma fold_input_lines_succeeds bd ls : forall td r0 rest,
  vertices td = r0 :: rest -> List.length r0 = 2%nat ->
  Forall line2d ls ->
  exists td', foldM (add_input_line bd) ls td = ([], Ok td').
Proof.
  induction ls as [|l ls IH]; intros td r0 rest Hv Hr0 Hall.
  - exists td. reflexivity.
  - inversion Hall as [|? ? Hl Hls]; subst.
    destruct l as [[|p pts]|]; try contradiction. cbn [line2d] in Hl.
    destruct (add_input_line_succeeds bd td r0 rest (p :: pts) Hv Hr0)
      as (td1 & Hstep & rest1 & Hv1); [discriminate | exact Hl |].
    destruct (IH td1 r0 rest1 Hv1 Hr0 Hls) as (td' & Hfold).
    exists td'. cbn [foldM]. now rewrite (bind_run _ _ [] td1 [] (Ok td') Hstep).
Qed.

Lemma flatten_lines_simple lines l :
  In l (flatten_lines lines) -> exists cs, l = LineString cs.
Proof.
  unfold flatten_lines. intros H. apply in_flat_map in H. destruct H as [g [_ Hg]].
  destruct g as [cs|parts].
  - destruct Hg as [<-|[]]. now exists cs.
  - apply in_map_iff in Hg. destruct Hg as [cs [<- _]]. now exists cs.
Qed.

Lemma line2d_snoc xs c :
  forallb is_xy (xs ++ [c]) = true -> line2d (LineString (xs ++ [c])).
Proof. destruct xs; cbn [app line2d]; auto. Qed.

Lemma bind_ret_nil {A B} (a : A) (k : A -> M B) : bind (ret a) k = k a.
Proof. unfold bind, ret. destruct (k a). reflexivity. Qed.

(** X16.  Without buffering and without interior polygons, a run on
    two-dimensional input always assembles a PSLG and prints the three
    progress lines, nothing else. *)
Theorem unbuffered_run_succeeds (G : Shapely) (bounding_poly : Polygon)
    (lines : list LineGeom) (points : list coord)
    (target_length element_area buffer_dist : Q) :
  0 < target_length -> buffer_dist == 0 ->
  (2 <= List.length (shell bounding_poly))%nat ->
  forallb is_xy (shell bounding_poly) = true ->
  Forall line2d (flatten_lines lines) ->
  (forall l d, In l (flatten_lines lines) -> is_xy (interpolate G l d) = true) ->
  exists td,
    triMeshgen_tri_data G bounding_poly lines points [] target_length element_area
      buffer_dist = (progress_lines, Ok td).
Proof.
  intros Hs Hz Hlen Hxy Hlines Hint.
  destruct (Qlt_bool_zero _ Hz) as [Hlt _].
  assert (Hgr : exists glines,
            mapM (grade G target_length) (lines_new G lines target_length)
              = ([], Ok glines) /\ Forall line2d glines).
  { apply mapM_all_ok. apply Forall_forall. intros l Hl.
    rewrite lines_new_filter in Hl. apply filter_In in Hl. destruct Hl as [Hin Hlong].
    apply Qlt_bool_iff in Hlong.
    rewrite Forall_forall in Hlines. pose proof (Hlines l Hin) as H2d.
    destruct l as [[|c cs]|]; try contradiction. cbn [line2d] in H2d.
    destruct (grade_succeeds G target_length c cs Hs) as (lastc & Hlast & Hgrade); [lra|].
    eexists. split; [exact Hgrade|].
    apply line2d_snoc. rewrite forallb_app. apply andb_true_iff. split.
    - apply forallb_forall. intros x Hx. apply in_map_iff in Hx.
      destruct Hx as [i [<- _]]. now apply Hint.
    - rewrite forallb_forall in H2d. cbn [forallb]. now rewrite (H2d lastc Hlast). }
  destruct Hgr as (glines & Hgr & H2d).
  assert (Hprep : prepare G lines [] target_length buffer_dist =
                  (firstn 2 progress_lines, Ok (glines, [], []))).
  { unfold prepare. cbn [len List.length Z.of_nat Z.ltb Z.compare].
    cbv zeta. cbn [polygons_new flat_map mapM].
    unfold print at 1. unfold ret at 1. cbn [bind].
    rewrite (bind_run _ _ [] glines
               ["buffering lines for refinement near lines ..."%string]
               (Ok (glines, [], [])) Hgr); [reflexivity|].
    rewrite bind_ret_nil. rewrite app_nil_r. unfold print. cbn [bind].
    rewrite Hlt. reflexivity. }
  pose proof (add_boundary_succeeds bounding_poly Hlen Hxy) as Hb.
  set (td0 := mk_tri_data (map row_of (removelast (shell bounding_poly)))
                (loop (len (removelast (shell bounding_poly)))) None) in *.
  assert (Hhead : exists r0 rest, vertices td0 = r0 :: rest /\ List.length r0 = 2%nat).
  { cbn [td0 vertices].
    destruct (removelast (shell bounding_poly)) as [|c r] eqn:E.
    - apply (f_equal (@List.length coord)) in E. rewrite length_removelast' in E.
      simpl in E. lia.
    - exists (row_of c), (map row_of r). split; [reflexivity|].
      apply forallb_removelast in Hxy. rewrite E in Hxy. cbn [forallb] in Hxy.
      apply andb_true_iff in Hxy. destruct Hxy as [Hc _]. destruct c; [reflexivity|discriminate]. }
  destruct Hhead as (r0 & rest & Hv0 & Hr0).
  destruct (fold_input_lines_succeeds buffer_dist glines td0 r0 rest Hv0 Hr0 H2d)
    as (td1 & Hfold).
  exists td1. unfold triMeshgen_tri_data.
  rewrite (bind_run _ _ _ _ ["preparing triangle input data .."%string] (Ok td1) Hprep);
    [reflexivity|].
  unfold assemble. unfold print. cbn [bind].
  rewrite (bind_run _ _ [] td0 [] (Ok td1) Hb); [reflexivity|].
  rewrite (bind_run _ _ [] td1 [] (Ok td1) Hfold); [reflexivity|].
  rewrite Hlt. reflexivity.
Qed.

Lemma rect_walk_xy rest : forall p d,
  is_xy p = true -> forallb is_xy rest = true -> is_xy (Rect.walk p rest d) = true.
Proof.
  induction rest as [|q rest IH]; intros p d Hp Hrest; cbn [Rect.walk]; [exact Hp|].
  cbn [forallb] in Hrest. apply andb_true_iff in Hrest. destruct Hrest as [Hq Hrest].
  destruct (Qle_bool d 0); [exact Hp|].
  destruct (Qlt_bool d (Rect.seg_len p q)); [|now apply IH].
  destruct p; [reflexivity | discriminate].
Qed.

Lemma rect_interpolate_xy l d : line2d l -> is_xy (interpolate Rect.geom l d) = true.
Proof.
  destruct l as [[|p rest]|]; try contradiction. cbn [line2d forallb]. intros H.
  apply andb_true_iff in H. destruct H as [Hp Hrest].
  change (interpolate Rect.geom) with Rect.interpolate. unfold Rect.interpolate.
  destruct (Qlt_bool d 0); now apply rect_walk_xy.
Qed.

Lemma unbuffered_run_succeeds_witness :
  exists td,
    triMeshgen_tri_data Rect.geom domain lines_mixed [] [] 20 5000 0 = (progress_lines, Ok td).
Proof.
  assert (H2d : Forall line2d (flatten_lines lines_mixed)).
  { repeat constructor. }
  apply (unbuffered_run_succeeds Rect.geom domain lines_mixed [] 20 5000 0).
  - reflexivity.
  - reflexivity.
  - simpl. lia.
  - reflexivity.
  - exact H2d.
  - intros l d Hin. apply rect_interpolate_xy.
    rewrite Forall_forall in H2d. now apply H2d.
Defined.

(** X17.  Buffering with nothing left to buffer fails: when every input
    line is dropped as too short and there are no polygons, the union is
    empty, no region row is collected, and reading the first one raises
    IndexError after the boundary has been assembled. *)
Theorem nothing_to_buffer_fails (G : Shapely) (bounding_poly : Polygon)
    (lines : list LineGeom) (points : list coord)
    (target_length element_area buffer_dist : Q) :
  0 < buffer_dist ->
  lines_new G lines target_length = [] ->
  simplify G (cascaded_union G []) (target_length / 2) = MultiPolygon [] ->
  (2 <= List.length (shell bounding_poly))%nat ->
  forallb is_xy (shell bounding_poly) = true ->
  triMeshgen_tri_data G bounding_poly lines points [] target_length element_area
    buffer_dist = (progress_lines, Raise IndexError).
Proof.
  intros Hpos Hnone Hunion Hlen Hxy.
  destruct (Qlt_bool_pos _ Hpos) as [Hlt _].
  assert (Hprep : prepare G lines [] target_length buffer_dist =
                  (firstn 2 progress_lines, Ok ([], [], []))).
  { unfold prepare. cbn [len List.length Z.of_nat Z.ltb Z.compare].
    cbv zeta. rewrite Hnone. cbn [polygons_new flat_map mapM app map].
    unfold print, ret. cbn [bind app map]. rewrite Hlt. cbn [map].
    rewrite Hunion. reflexivity. }
  pose proof (add_boundary_succeeds bounding_poly Hlen Hxy) as Hb.
  unfold triMeshgen_tri_data.
  rewrite (bind_run _ _ _ _ ["preparing triangle input data .."%string]
             (Raise IndexError) Hprep); [reflexivity|].
  unfold assemble. unfold print. cbn [bind].
  rewrite (bind_run _ _ [] _ [] (Raise IndexError) Hb); [reflexivity|].
  cbn [foldM]. rewrite bind_ret_nil, Hlt. cbn [foldM]. rewrite bind_ret_nil.
  reflexivity.
Qed.

Lemma nothing_to_buffer_fails_witness :
  triMeshgen_tri_data Rect.geom domain [short30] [] [] 20 5000 25
  = (progress_lines, Raise IndexError).
Proof.
  apply (nothing_to_buffer_fails Rect.geom domain [short30] [] 20 5000 25).
  - reflexivity.
  - reflexivity.
  - reflexivity.
  - simpl. lia.
  - reflexivity.
Defined.

Lemma flatten_lines_of_simple ls :
  Forall (fun l => exists cs, l = LineString cs) ls -> flatten_lines ls = ls.
Proof.
  induction 1 as [|l ls [cs ->] _ IH]; [reflexivity|].
  unfold flatten_lines in *. cbn [flat_map app]. now rewrite IH.
Qed.

Lemma filter_idem {A} (f : A -> bool) (l : list A) : filter f (filter f l) = filter f l.
Proof.
  induction l as [|a l IH]; [reflexivity|]. cbn [filter].
  destruct (f a) eqn:E; [cbn [filter]; rewrite E, IH; reflexivity | exact IH].
Qed.

(** X18.  Dropping short lines is idempotent, and a run on the lines as
    given equals a run on the lines already flattened and filtered: the
    dropped lines leave no trace in the result or in the printed
    output. *)
Theorem lines_new_idempotent (G : Shapely) (bounding_poly : Polygon)
    (lines : list LineGeom) (points : list coord) (polygons : list PolyGeom)
    (target_length element_area buffer_dist : Q) :
  lines_new G (lines_new G lines target_length) target_length
    = lines_new G lines target_length /\
  triMeshgen_tri_data G bounding_poly (lines_new G lines target_length) points polygons
    target_length element_area buffer_dist
  = triMeshgen_tri_data G bounding_poly lines points polygons
      target_length element_area buffer_dist.
Proof.
  assert (Hidem : lines_new G (lines_new G lines target_length) target_length
                  = lines_new G lines target_length).
  { rewrite (lines_new_filter G (lines_new G lines target_length)).
    rewrite flatten_lines_of_simple.
    - rewrite lines_new_filter. apply filter_idem.
    - apply Forall_forall. intros l Hl. rewrite lines_new_filter in Hl.
      apply filter_In in Hl. destruct Hl as [Hl _]. eapply flatten_lines_simple; eassumption. }
  split; [exact Hidem|].
  unfold triMeshgen_tri_data, prepare. now rewrite Hidem.
Qed.

(** ** The call of the triangulator *)

(** X19.  triMeshgen hands the assembled PSLG and the maximum area to
    the triangulator and returns what it returns, a mesh or its
    exception; when the assembly fails the run fails with the same
    exception, whatever the triangulator would do. *)
Theorem triMeshgen_oracle (G : Shapely) (T : Triangle) (bounding_poly : Polygon)
    (lines : list LineGeom) (points : list coord) (polygons : list PolyGeom)
    (target_length element_area buffer_dist : Q) :
  (forall out td,
     triMeshgen_tri_data G bounding_poly lines points polygons
       target_length element_area buffer_dist = (out, Ok td) ->
     snd (triMeshgen G T bounding_poly lines points polygons
            target_length element_area buffer_dist) = triangulate T td element_area) /\
  (forall out e,
     triMeshgen_tri_data G bounding_poly lines points polygons
       target_length element_area buffer_dist = (out, Raise e) ->
     triMeshgen G T bounding_poly lines points polygons
       target_length element_area buffer_dist = (out, Raise e)).
Proof.
  split.
  - intros out td Hrun. unfold triMeshgen. rewrite Hrun.
    unfold print, lift, ret. cbn [bind].
    destruct (triangulate T td element_area); reflexivity.
  - intros out e Hrun. unfold triMeshgen. rewrite Hrun. reflexivity.
Qed.

Lemma triMeshgen_oracle_witness :
  exists out td,
    triMeshgen_tri_data Rect.geom domain [line_a] [] [] 20 5000 0 = (out, Ok td) /\
    snd (triMeshgen Rect.geom echo_triangle domain [line_a] [] [] 20 5000 0)
      = Ok (mkMesh (vertices td) []).
Proof.
  assert (Hrun : exists out td,
    triMeshgen_tri_data Rect.geom domain [line_a] [] [] 20 5000 0 = (out, Ok td))
    by (eexists; eexists; vm_compute; reflexivity).
  destruct Hrun as (out & td & Hrun). exists out, td. split; [exact Hrun|].
  destruct (triMeshgen_oracle Rect.geom echo_triangle domain [line_a] [] [] 20 5000 0)
    as [Hok _].
  exact (Hok out td Hrun).
Defined.

(** ** write_tri_to_shapefile *)

Lemma nth_error_range n k :
  nth_error (range n) k = if Nat.ltb k (Z.to_nat n) then Some (Z.of_nat k) else None.
Proof.
  unfold range. rewrite nth_error_map, nth_error_seq.
  destruct (Nat.ltb k (Z.to_nat n)); reflexivity.
Qed.

Lemma Forall2_nth_r {A B} (R : A -> B -> Prop) xs ys :
  Forall2 R xs ys ->
  List.length ys = List.length xs /\
  forall k y, nth_error ys k = Some y -> exists x, nth_error xs k = Some x /\ R x y.
Proof.
  induction 1 as [|x y xs ys Hxy _ [Hlen Hnth]].
  - split; [reflexivity|]. intros [|k] y H; discriminate.
  - split; [cbn [List.length]; lia|]. intros [|k] y' H.
    + injection H as <-. now exists x.
    + now apply Hnth.
Qed.

Lemma Forall2_from_nth {A B} (R : A -> B -> Prop) xs : forall ys,
  List.length ys = List.length xs ->
  (forall k x y, nth_error xs k = Some x -> nth_error ys k = Some y -> R x y) ->
  Forall2 R xs ys.
Proof.
  induction xs as [|x xs IH]; intros [|y ys] Hlen Hnth; try discriminate; constructor.
  - now apply (Hnth 0%nat).
  - apply IH; [simpl in Hlen; lia|]. intros k x' y' Hx Hy. now apply (Hnth (S k)).
Qed.

(** What a loop [for i in range(n)] collects, entry by entry. *)
Lemma mapM_range_nth {B} (f : Z -> M B) n o ys :
  mapM f (range n) = (o, Ok ys) ->
  List.length ys = Z.to_nat n /\
  forall k y, nth_error ys k = Some y -> exists o', f (Z.of_nat k) = (o', Ok y).
Proof.
  intros H. apply mapM_ok_Forall2, Forall2_nth_r in H. destruct H as [Hlen Hnth].
  split.
  - rewrite Hlen. unfold range. now rewrite length_map, length_seq.
  - intros k y Hy. destruct (Hnth k y Hy) as (i & Hi & Hf).
    rewrite nth_error_range in Hi. destruct (Nat.ltb k (Z.to_nat n)); [|discriminate].
    now injection Hi as <-.
Qed.

Lemma getitem_nat {A} (xs : list A) k x :
  getitem xs (Z.of_nat k) = Ok x <-> nth_error xs k = Some x.
Proof.
  unfold getitem, index.
  assert (E : (0 <=? Z.of_nat k)%Z = true) by (apply Z.leb_le; lia).
  rewrite E, Nat2Z.id. destruct (nth_error xs k); split; congruence.
Qed.

Lemma getitem_bounds {A} (xs : list A) i x :
  getitem xs i = Ok x -> (- len xs <= i < len xs)%Z.
Proof.
  unfold getitem, index, len.
  destruct (0 <=? i)%Z eqn:E0.
  - apply Z.leb_le in E0. destruct (nth_error xs (Z.to_nat i)) eqn:En; [|discriminate].
    intros _. assert (Z.to_nat i < List.length xs)%nat.
    { apply nth_error_Some. congruence. }
    lia.
  - apply Z.leb_gt in E0. destruct (- Z.of_nat (List.length xs) <=? i)%Z eqn:E1; [|discriminate].
    apply Z.leb_le in E1. intros _. lia.
Qed.

Lemma take_ok a t rows : take a t = Ok rows -> in_bounds (len a) t.
Proof.
  destruct t as [[i j] k]. unfold take, in_bounds.
  destruct (getitem a i) eqn:Ei; [|discriminate].
  destruct (getitem a j) eqn:Ej; [|discriminate].
  destruct (getitem a k) eqn:Ek; [|discriminate].
  intros _. apply getitem_bounds in Ei, Ej, Ek. auto.
Qed.

(** The four loops of the exporter, once it has returned. *)
Lemma write_tri_ok E m p1 p2 out files r :
  write_tri_to_shapefile E m p1 p2 = (out, Ok (files, r)) ->
  exists points polygons pfs gfs o1 o2 o3 o4,
    mapM (fun i => r <- lift (getitem (mesh_vertices m) i) ;; lift (Point_new E r))
         (range (len (mesh_vertices m))) = (o1, Ok points) /\
    mapM (fun i => t <- lift (getitem (triangles m) i) ;;
                   rows <- lift (take (mesh_vertices m) t) ;;
                   lift (Polygon_new E rows))
         (range (len (triangles m))) = (o2, Ok polygons) /\
    mapM (fun i => p <- lift (getitem points i) ;; ret (mkPointFeature p i))
         (range (len points)) = (o3, Ok pfs) /\
    mapM (fun i => p <- lift (getitem polygons i) ;;
                   t <- lift (getitem (triangles m) i) ;;
                   ret (mkPolygonFeature p i
                          (strip "]"%char (strip "["%char (str_row E t)))))
         (range (len polygons)) = (o4, Ok gfs) /\
    files = [PointFile p1 pfs; PolygonFile p2 gfs] /\ r = patience.
Proof.
  unfold write_tri_to_shapefile. intros H. cbv zeta in H.
  inv_bind_as H q0 u0 Hp0 H. clear Hp0.
  inv_bind_as H o1 points Hpts H.
  inv_bind_as H q1 u1 Hp1 H. clear Hp1.
  inv_bind_as H o2 polygons Hpol H.
  inv_bind_as H q2 u2 Hp2 H. clear Hp2.
  inv_bind_as H o3 pfs Hpfs H.
  inv_bind_as H q3 u3 Hp3 H. clear Hp3.
  inv_bind_as H q4 u4 Hp4 H. clear Hp4.
  inv_bind_as H o4 gfs Hgfs H.
  inv_bind_as H q5 u5 Hp5 H. clear Hp5.
  apply ret_ok in H. injection H as <- <-.
  exists points, polygons, pfs, gfs, o1, o2, o3, o4. repeat split; assumption.
Qed.

(** X20.  A finished export has written the point layer and then the
    polygon layer, and returns 'patience is a virtue': one point record
    per mesh vertex, in order, with ids 0, 1, ...; one polygon record per
    triangle, in order, with ids 0, 1, ..., built from the rows the
    triangle refers to, its 'vertices' text being the rendering of the
    triangle's row stripped of '[' and of ']'. *)
Theorem export_layers (E : Exporter) (m : Mesh) (p1 p2 : string)
    (out : list string) (files : list Shapefile) (r : string) :
  write_tri_to_shapefile E m p1 p2 = (out, Ok (files, r)) ->
  r = patience /\
  exists pfs gfs,
    files = [PointFile p1 pfs; PolygonFile p2 gfs] /\
    map pf_id pfs = range (len (mesh_vertices m)) /\
    Forall2 (fun row f => Point_new E row = Ok (pf_geometry f)) (mesh_vertices m) pfs /\
    map gf_id gfs = range (len (triangles m)) /\
    Forall2 (fun t f =>
               (exists rows, take (mesh_vertices m) t = Ok rows /\
                             Polygon_new E rows = Ok (gf_geometry f)) /\
               gf_vertices f = strip "]"%char (strip "["%char (str_row E t)))
            (triangles m) gfs.
Proof.
  intros H. apply write_tri_ok in H.
  destruct H as (points & polygons & pfs & gfs & o1 & o2 & o3 & o4 &
                 Hpts & Hpol & Hpfs & Hgfs & -> & ->).
  split; [reflexivity|]. exists pfs, gfs. split; [reflexivity|].
  apply mapM_range_nth in Hpts, Hpol, Hpfs, Hgfs.
  destruct Hpts as [Lpts Npts]. destruct Hpol as [Lpol Npol].
  destruct Hpfs as [Lpfs Npfs]. destruct Hgfs as [Lgfs Ngfs].
  unfold len in Lpts, Lpol, Lpfs, Lgfs. rewrite Nat2Z.id in Lpts, Lpol, Lpfs, Lgfs.
  assert (Fp : forall k f, nth_error pfs k = Some f ->
            pf_id f = Z.of_nat k /\
            exists row, nth_error (mesh_vertices m) k = Some row /\
                        Point_new E row = Ok (pf_geometry f)).
  { intros k f Hf. destruct (Npfs k f Hf) as [o' Hrun].
    inv_bind_as Hrun q p Hg Hrun. apply lift_ok, getitem_nat in Hg.
    apply ret_ok in Hrun. subst f. cbn [pf_id pf_geometry]. split; [reflexivity|].
    destruct (Npts k p Hg) as [o'' Hrun].
    inv_bind_as Hrun q' row Hg' Hrun. apply lift_ok, getitem_nat in Hg'.
    apply lift_ok in Hrun. now exists row. }
  assert (Fg : forall k f, nth_error gfs k = Some f ->
            gf_id f = Z.of_nat k /\
            exists t, nth_error (triangles m) k = Some t /\
              (exists rows, take (mesh_vertices m) t = Ok rows /\
                            Polygon_new E rows = Ok (gf_geometry f)) /\
              gf_vertices f = strip "]"%char (strip "["%char (str_row E t))).
  { intros k f Hf. destruct (Ngfs k f Hf) as [o' Hrun].
    inv_bind_as Hrun q p Hg Hrun. apply lift_ok, getitem_nat in Hg.
    inv_bind_as Hrun q' t Ht Hrun. apply lift_ok, getitem_nat in Ht.
    apply ret_ok in Hrun. subst f. cbn [gf_id gf_geometry gf_vertices].
    split; [reflexivity|]. exists t. split; [exact Ht|]. split; [|reflexivity].
    destruct (Npol k p Hg) as [o'' Hrun].
    inv_bind_as Hrun q'' t' Ht' Hrun. apply lift_ok, getitem_nat in Ht'.
    inv_bind_as Hrun q3 rows Hrows Hrun. apply lift_ok in Hrows. apply lift_ok in Hrun.
    assert (t' = t) by congruence. subst t'. now exists rows. }
  repeat split.
  - apply nth_error_ext. intros k. rewrite nth_error_map, nth_error_range.
    destruct (nth_error pfs k) as [f|] eqn:Hf; cbn [option_map].
    + destruct (Fp k f Hf) as [-> _].
      assert (k < List.length pfs)%nat by (apply nth_error_Some; congruence).
      assert (E1 : Nat.ltb k (Z.to_nat (len (mesh_vertices m))) = true).
      { apply Nat.ltb_lt. unfold len. lia. }
      now rewrite E1.
    + apply nth_error_None in Hf.
      assert (E1 : Nat.ltb k (Z.to_nat (len (mesh_vertices m))) = false).
      { apply Nat.ltb_ge. unfold len. lia. }
      now rewrite E1.
  - apply Forall2_from_nth; [lia|]. intros k row f Hrow Hf.
    destruct (Fp k f Hf) as (_ & row' & Hrow' & Hpt). congruence.
  - apply nth_error_ext. intros k. rewrite nth_error_map, nth_error_range.
    destruct (nth_error gfs k) as [f|] eqn:Hf; cbn [option_map].
    + destruct (Fg k f Hf) as [-> _].
      assert (k < List.length gfs)%nat by (apply nth_error_Some; congruence).
      assert (E1 : Nat.ltb k (Z.to_nat (len (triangles m))) = true).
      { apply Nat.ltb_lt. unfold len. lia. }
      now rewrite E1.
    + apply nth_error_None in Hf.
      assert (E1 : Nat.ltb k (Z.to_nat (len (triangles m))) = false).
      { apply Nat.ltb_ge. unfold len. lia. }
      now rewrite E1.
  - apply Forall2_from_nth; [lia|]. intros k t f Ht Hf.
    destruct (Fg k f Hf) as (_ & t' & Ht' & Hgeo & Hv).
    assert (t' = t) by congruence. subst t'. split; assumption.
Qed.

Lemma export_layers_witness :
  exists out files pfs gfs,
    write_tri_to_shapefile test_exporter mesh2 "pts.shp" "tri.shp"
      = (out, Ok (files, patience)) /\
    files = [PointFile "pts.shp" pfs; PolygonFile "tri.shp" gfs] /\
    map pf_id pfs = [0; 1; 2; 3]%Z /\ map gf_id gfs = [0; 1]%Z.
Proof.
  assert (Hrun : exists out files,
    write_tri_to_shapefile test_exporter mesh2 "pts.shp" "tri.shp"
      = (out, Ok (files, patience)))
    by (eexists; eexists; vm_compute; reflexivity).
  destruct Hrun as (out & files & Hrun).
  destruct (export_layers test_exporter mesh2 "pts.shp" "tri.shp" out files patience Hrun)
    as (_ & pfs & gfs & Hfiles & Hpid & _ & Hgid & _).
  exists out, files, pfs, gfs. repeat split; assumption.
Defined.

(** X21.  A finished export implies that every triangle refers to rows
    of the vertex array (indices in [-n, n), negative ones counting from
    the end): a triangle with an index outside never gets a file
    written. *)
Theorem export_needs_valid_triangles (E : Exporter) (m : Mesh) (p1 p2 : string)
    (out : list string) (files : list Shapefile) (r : string) :
  write_tri_to_shapefile E m p1 p2 = (out, Ok (files, r)) ->
  Forall (in_bounds (len (mesh_vertices m))) (triangles m).
Proof.
  intros H. apply write_tri_ok in H.
  destruct H as (points & polygons & pfs & gfs & o1 & o2 & o3 & o4 &
                 _ & Hpol & _).
  apply mapM_range_nth in Hpol. destruct Hpol as [Lpol Npol].
  unfold len in Lpol. rewrite Nat2Z.id in Lpol.
  apply Forall_forall. intros t Ht. apply In_nth_error in Ht. destruct Ht as [k Hk].
  assert (Hlt : (k < List.length polygons)%nat).
  { rewrite Lpol. apply nth_error_Some. congruence. }
  destruct (nth_error polygons k) as [p|] eqn:Hp; [|apply nth_error_None in Hp; lia].
  destruct (Npol k p Hp) as [o' Hrun].
  inv_bind_as Hrun q t' Ht' Hrun. apply lift_ok, getitem_nat in Ht'.
  inv_bind_as Hrun q' rows Hrows Hrun. apply lift_ok in Hrows.
  assert (t' = t) by congruence. subst t'. eapply take_ok; eassumption.
Qed.

Lemma export_needs_valid_triangles_witness :
  Forall (in_bounds 4) (triangles mesh2) /\
  write_tri_to_shapefile test_exporter mesh_bad "pts.shp" "tri.shp"
    = (["creating shapely point list .."%string;
        "creating shapely polygon list .."%string], Raise IndexError).
Proof.
  split; [|reflexivity].
  assert (Hrun : exists out files,
    write_tri_to_shapefile test_exporter mesh2 "pts.shp" "tri.shp"
      = (out, Ok (files, patience)))
    by (eexists; eexists; vm_compute; reflexivity).
  destruct Hrun as (out & files & Hrun).
  exact (export_needs_valid_triangles test_exporter mesh2 "pts.shp" "tri.shp"
           out files patience Hrun).
Defined.





Lemma bind_raise {A B} (c : M A) (k : A -> M B) o e :
  c = (o, Raise e) -> bind c k = (o, Raise e).
Proof. now intros ->. Qed.





Lemma rstrip_free c s : free_of c s -> rstrip c s = s.
Proof.
  induction s as [|a s IH]; [reflexivity|]. cbn [free_of rstrip]. intros [Ha Hs].
  rewrite (IH Hs). destruct s; [|reflexivity].
  apply Ascii.eqb_neq in Ha. now rewrite Ha.
Qed.

Lemma rstrip_snoc c s : rstrip c (String.append s (String c EmptyString)) = rstrip c s.
Proof.
  induction s as [|a s IH]; cbn [String.append rstrip].
  - now rewrite Ascii.eqb_refl.
  - now rewrite IH.
Qed.

Lemma free_of_append c s t : free_of c s -> free_of c t -> free_of c (String.append s t).
Proof. induction s as [|a s IH]; cbn [String.append free_of]; tauto. Qed.

Lemma lstrip_free c s : free_of c s -> lstrip c s = s.
Proof.
  destruct s as [|a s]; [reflexivity|]. cbn [free_of lstrip]. intros [Ha _].
  apply Ascii.eqb_neq in Ha. now rewrite Ha.
Qed.

(** X23.  Stripping '[' and then ']' takes the brackets off a rendering
    ["[" ++ body ++ "]"] whose body has no bracket in it: the 'vertices'
    text of a polygon record is the body of the rendered row. *)
Theorem strip_brackets (body : string) :
  free_of "["%char body -> free_of "]"%char body ->
  strip "]"%char
    (strip "["%char (String "["%char (String.append body (String "]"%char EmptyString))))
  = body.
Proof.
  intros Hopen Hclose. unfold strip at 2. cbn [lstrip]. rewrite Ascii.eqb_refl.
  assert (Hfree : free_of "["%char (String.append body (String "]"%char EmptyString))).
  { apply free_of_append; [exact Hopen|]. cbn [free_of]. split; [discriminate | exact I]. }
  rewrite (lstrip_free _ _ Hfree), (rstrip_free _ _ Hfree).
  unfold strip. destruct body as [|a body].
  - reflexivity.
  - cbn [String.append lstrip]. destruct Hclose as [Ha Hclose].
    pose proof Ha as Ha'. apply Ascii.eqb_neq in Ha'. rewrite Ha'.
    change (String a (String.append body (String "]"%char EmptyString)))
      with (String.append (String a body) (String "]"%char EmptyString)).
    rewrite rstrip_snoc. apply rstrip_free. cbn [free_of]. auto.
Qed.

Lemma strip_brackets_witness :
  strip "]"%char (strip "["%char "[0 2 3]") = "0 2 3"%string.
Proof.
  apply (strip_brackets "0 2 3").
  - repeat split; discriminate.
  - repeat split; discriminate.
Defined.
